(** * utils/log.py: the logging framework of the integration test suite

    A shallow embedding of [utils/log.py] and proofs about its marker
    formatter, its source-attribution filter, the performance timer, the
    logger factory and the artifact-forwarding adapter.

    Python [str] values (byte strings in Python 2) are [string]; integers are
    [Z]; dictionaries keyed by strings are [gmap string _]; code that may
    raise returns a [result]. *)

From stdpp Require Import gmap strings list fin_maps pretty.
From Stdlib Require Import ZArith Ascii String Lia.

#[local] Set Warnings "-register-all".
#[local] Open Scope string_scope.
#[local] Open Scope list_scope.
#[local] Open Scope nat_scope.

(** * Part I: the embedding *)

(** ** Exceptions and results *)

(** The exception classes the module can let escape. *)
Inductive exn : Type :=
| ValueError
| TypeError
| KeyError
| AttributeError
| IndexError
| ImportError
| CollectorError (why : string).

Inductive result (A : Type) : Type :=
| Ok (a : A)
| Raise (e : exn).
Arguments Ok {A} a.
Arguments Raise {A} e.

#[global] Instance result_ret : MRet result := λ A a, Ok a.
#[global] Instance result_bind : MBind result := λ A B k r,
  match r with
  | Ok a => k a
  | Raise e => Raise e
  end.

Definition is_ok {A : Type} (r : result A) : bool :=
  match r with Ok _ => true | Raise _ => false end.

(** ** String helpers *)

Fixpoint str_repeat (c : ascii) (n : nat) : string :=
  match n with
  | O => ""
  | S k => String c (str_repeat c k)
  end.

(** ** The marker formatter *)

Module Marker.

Definition MARKER_LEN : nat := 80.

(** [format(value, fill ^ width)] on a [str]: the padding is split so that the
    left part gets the rounded-down half and the right part the rest; a value
    at least as wide as [width] is left alone. *)
Definition str_center (s : string) (fill : ascii) (width : nat) : string :=
  let total := width - String.length s in
  let lpad := total / 2 in
  let rpad := total - lpad in
  str_repeat fill lpad +:+ s +:+ str_repeat fill rpad.

(** The fill that [str.format] reads out of the template
    ["{:" + mark + "^80}"] built from [mark]: an empty [mark] leaves the
    default fill (a space), a single character other than a brace is the fill,
    and every other [mark] makes the template ill-formed, so that formatting
    with it raises (for some [mark]s with braces CPython reports an
    [IndexError] or [KeyError]; the embedding keeps one class). *)
Definition spec_fill (mark : string) : result ascii :=
  match mark with
  | "" => Ok " "%char
  | String c "" =>
      if (Ascii.eqb c "{" || Ascii.eqb c "}")%bool then Raise ValueError else Ok c
  | _ => Raise ValueError
  end.

(** [format_marker(mstring, mark="-")]. *)
Definition format_marker (mstring : string) (mark : string) : result string :=
  if Nat.leb (String.length mstring) (MARKER_LEN - 2) then
    let mstring := " " +:+ mstring +:+ " " in
    fill ← spec_fill mark;
    Ok (str_center mstring fill MARKER_LEN)
  else Ok mstring.

(** The default value of the [mark] argument. *)
Definition default_mark : string := "-".

End Marker.

(** ** Log records and the source-attribution filter *)

Module Relpath.

(** A [logging.LogRecord] as the filter sees it. [pathname] and [lineno] are
    the call site captured by the logging library and are always there.
    [source_file] and [source_lineno] are attributes copied from the [extra]
    dictionary of the logging call: [None] says the attribute is missing;
    [source_lineno = Some None] says it is there and holds Python's [None].
    [source] is the attribute the filter computes. *)
Record LogRecord : Type := mkLogRecord {
  levelno : Z;
  msg : string;
  pathname : string;
  lineno : Z;
  source_file : option string;
  source_lineno : option (option Z);
  source : option string
}.

Definition set_source (s : string) (r : LogRecord) : LogRecord :=
  {| levelno := levelno r; msg := msg r;
     pathname := pathname r; lineno := lineno r;
     source_file := source_file r; source_lineno := source_lineno r;
     source := Some s |}.

(** Reading an attribute that may be missing. *)
Definition getattr {A : Type} (attr : option A) : result A :=
  match attr with
  | Some a => Ok a
  | None => Raise AttributeError
  end.

(** [try: body except AttributeError: handler]. *)
Definition except_AttributeError {A : Type} (body handler : result A) : result A :=
  match body with
  | Raise AttributeError => handler
  | other => other
  end.

(** Truth value of a line number: [None] and [0] are false. *)
Definition lineno_truthy (l : option Z) : bool :=
  match l with
  | Some n => negb (n =? 0)%Z
  | None => false
  end.

(** ["%s:%d" % (relpath, lineno)]. *)
Definition fmt_source (relpath : string) (n : Z) : string :=
  relpath +:+ ":" +:+ pretty n.

(** The source string for a path and a line number: the path alone when the
    line number is false. *)
Definition source_of (relpath : string) (l : option Z) : string :=
  match l with
  | Some n => if (n =? 0)%Z then relpath else fmt_source relpath n
  | None => relpath
  end.

Section Filter.

(** [utils.path.get_rel_path], whose body is outside the module. *)
Variable get_rel_path : string → string.

(** The path and line number chosen by the [try]/[except] of
    [_RelpathFilter.filter]. *)
Definition provenance (record : LogRecord) : result (string * option Z) :=
  except_AttributeError
    (f ← getattr (source_file record);
     let relpath := get_rel_path f in
     l ← getattr (source_lineno record);
     Ok (relpath, l))
    (let relpath := get_rel_path (pathname record) in
     Ok (relpath, Some (lineno record))).

(** [_RelpathFilter.filter]: the verdict and the record as it was mutated. *)
Definition filter (record : LogRecord) : result (bool * LogRecord) :=
  '(relpath, l) ← provenance record;
  if lineno_truthy l then
    match l with
    | Some n => Ok (true, set_source (fmt_source relpath n) record)
    | None => Raise TypeError
    end
  else Ok (true, set_source relpath record).

End Filter.

(** Removing a prefix from a string. *)
Fixpoint strip_prefix (p s : string) : option string :=
  match p with
  | "" => Some s
  | String a p' =>
      match s with
      | String b s' => if Ascii.eqb a b then strip_prefix p' s' else None
      | "" => None
      end
  end.

(** Modelled from the spec: [utils.path.get_rel_path] is missing from the
    sources; the spec says that a path is converted to project-relative
    form when possible and is kept as it is otherwise. *)
Definition get_rel_path_under (project_path : string) (path : string) : string :=
  match strip_prefix (project_path +:+ "/") path with
  | Some "" | None => path
  | Some rel => rel
  end.

(** The reading under which a supplied [source_file] decides the path of
    the source string of [record], whether or not a [source_lineno] comes
    with it. *)
Definition source_file_decides (get_rel_path : string → string)
    (record : LogRecord) : Prop :=
  ∀ f, source_file record = Some f →
    ∃ record' suffix,
      filter get_rel_path record = Ok (true, record')
      ∧ source record' = Some (get_rel_path f +:+ suffix).

(** A record whose logging call supplied [source_file] but no
    [source_lineno]. *)
Definition record_file_only : LogRecord :=
  {| levelno := 20; msg := "started";
     pathname := "/proj/utils/log.py"; lineno := 499;
     source_file := Some "/proj/cfme/tests/test_x.py";
     source_lineno := None;
     source := None |}.

(** A record with both attributes supplied. *)
Definition record_both (l : option Z) : LogRecord :=
  {| levelno := 20; msg := "started";
     pathname := "/proj/utils/log.py"; lineno := 499;
     source_file := Some "/proj/cfme/tests/test_x.py";
     source_lineno := Some l;
     source := None |}.

(** A record of a plain logging call. *)
Definition record_plain : LogRecord :=
  {| levelno := 20; msg := "started";
     pathname := "/proj/cfme/base.py"; lineno := 12;
     source_file := None; source_lineno := None; source := None |}.

End Relpath.

(** ** Severity levels *)

Module Level.

Definition CRITICAL : Z := 50.
Definition ERROR : Z := 40.
Definition WARNING : Z := 30.
Definition INFO : Z := 20.
Definition DEBUG : Z := 10.
Definition TRACE : Z := 5.
Definition NOTSET : Z := 0.

(** The table behind [logging.getLevelName] and [Logger.setLevel], with the
    [TRACE] level the module registers: from names to numbers. *)
Definition level_of_name (name : string) : option Z :=
  if String.eqb name "CRITICAL" then Some CRITICAL
  else if String.eqb name "ERROR" then Some ERROR
  else if String.eqb name "WARN" then Some WARNING
  else if String.eqb name "WARNING" then Some WARNING
  else if String.eqb name "INFO" then Some INFO
  else if String.eqb name "DEBUG" then Some DEBUG
  else if String.eqb name "TRACE" then Some TRACE
  else if String.eqb name "NOTSET" then Some NOTSET
  else None.

(** [logging.getLevelName(lvl).lower()] for a numeric level. *)
Definition level_name_lower (lvl : Z) : string :=
  if (lvl =? CRITICAL)%Z then "critical"
  else if (lvl =? ERROR)%Z then "error"
  else if (lvl =? WARNING)%Z then "warning"
  else if (lvl =? INFO)%Z then "info"
  else if (lvl =? DEBUG)%Z then "debug"
  else if (lvl =? TRACE)%Z then "trace"
  else if (lvl =? NOTSET)%Z then "notset"
  else "level " +:+ pretty lvl.

End Level.

(** ** The performance timer *)

Module Perf.

Section Timer.

(** Readings of [time()] and their difference (floating point in the
    source, left abstract here). *)
Context {timestamp : Type}.
Variable elapsed : timestamp → timestamp → timestamp.

(** An argument of a logging call. *)
Inductive log_arg : Type :=
| ArgStr (s : string)
| ArgSeconds (t : timestamp).

(** A call of a method of [self.logger]: level, message template and the
    arguments to be merged into it. *)
Record log_call : Type := mkLogCall {
  call_level : Z;
  call_msg : string;
  call_args : list log_arg
}.

(** The class attribute [tracking_events], shared by every [Perflog], and the
    calls received by the [perf] logger so far. *)
Record PerfState : Type := mkPerfState {
  tracking_events : gmap string timestamp;
  perf_calls : list log_call
}.

(** The opening of every message template: a [%s] between double quotes. *)
Definition quoted_s : string :=
  let dq := String (ascii_of_nat 34) "" in dq +:+ "%s" +:+ dq.

Definition logger_call (lvl : Z) (template : string) (args : list log_arg)
    (st : PerfState) : PerfState :=
  {| tracking_events := tracking_events st;
     perf_calls := perf_calls st ++ [mkLogCall lvl template args] |}.

(** [Perflog.start(event_name)]; [now] is what [time()] returns. *)
Definition start (event_name : string) (now : timestamp) (st : PerfState) : PerfState :=
  let st1 :=
    match tracking_events st !! event_name with
    | Some _ =>
        logger_call Level.WARNING (quoted_s +:+ " event already started, resetting start time")
          [ArgStr event_name] st
    | None =>
        logger_call Level.DEBUG (quoted_s +:+ " event tracking started") [ArgStr event_name] st
    end in
  {| tracking_events := <[event_name := now]> (tracking_events st1);
     perf_calls := perf_calls st1 |}.

(** [Perflog.stop(event_name)]: the returned value ([None] is Python's
    [None]) and the state afterwards. *)
Definition stop (event_name : string) (now : timestamp) (st : PerfState)
    : option timestamp * PerfState :=
  match tracking_events st !! event_name with
  | Some started =>
      let seconds_taken := elapsed now started in
      let st1 := {| tracking_events := delete event_name (tracking_events st);
                    perf_calls := perf_calls st |} in
      (Some seconds_taken,
       logger_call Level.INFO (quoted_s +:+ " event took %f seconds")
         [ArgStr event_name; ArgSeconds seconds_taken] st1)
  | None =>
      (None,
       logger_call Level.ERROR (quoted_s +:+ " not being tracked, call .start first")
         [ArgStr event_name] st)
  end.

End Timer.

End Perf.

(** ** Configuration values *)

Module Conf.

(** The values a YAML configuration file yields. *)
Inductive value : Type :=
| VNone
| VBool (b : bool)
| VInt (n : Z)
| VStr (s : string)
| VDict (d : gmap string value).

(** Python's truth value. *)
Definition truthy (v : value) : bool :=
  match v with
  | VNone => false
  | VBool b => b
  | VInt n => negb (n =? 0)%Z
  | VStr s => negb (String.eqb s "")
  | VDict d => negb (Nat.eqb (size d) 0)
  end.

(** [d[key]] on a dictionary. *)
Definition getitem (d : gmap string value) (key : string) : result value :=
  match d !! key with
  | Some v => Ok v
  | None => Raise KeyError
  end.

(** [v[key]] on any value: only a dictionary can be indexed by a string. *)
Definition subscript (v : value) (key : string) : result value :=
  match v with
  | VDict d => getitem d key
  | _ => Raise TypeError
  end.

(** [d.update(other)]: a mapping overrides key by key; any other argument is
    read as a sequence of pairs, so an empty string changes nothing, another
    string raises [ValueError] (its items are single characters), and values
    that cannot be iterated raise [TypeError]. *)
Definition dict_update (d : gmap string value) (other : value)
    : result (gmap string value) :=
  match other with
  | VDict d' => Ok (d' ∪ d)
  | VStr "" => Ok d
  | VStr _ => Raise ValueError
  | VNone | VBool _ | VInt _ => Raise TypeError
  end.

(** [x or y] where [x] is an optional integer argument ([None] when it is not
    passed) and [y] is only evaluated when [x] is false. *)
Definition py_or (x : option Z) (y : result value) : result value :=
  match x with
  | Some n => if (n =? 0)%Z then y else Ok (VInt n)
  | None => y
  end.

(** [try: body except KeyError: handler]. *)
Definition except_KeyError {A : Type} (body handler : result A) : result A :=
  match body with
  | Raise KeyError => handler
  | other => other
  end.

Definition file_format_default : string :=
  "%(asctime)-15s [%(levelname).1s] %(message)s (%(source)s)".
Definition stream_format_default : string :=
  "[%(levelname)s] %(message)s (%(source)s)".

(** [_default_conf]. *)
Definition _default_conf : gmap string value :=
  <["level" := VStr "INFO"]>
  (<["max_file_size" := VInt 0]>
  (<["max_file_backups" := VInt 0]>
  (<["errors_to_console" := VBool false]>
  (<["file_format" := VStr file_format_default]>
  (<["stream_format" := VStr stream_format_default]> ∅))))).

(** The keys of [_default_conf]. *)
Definition reserved_keys : list string :=
  ["level"; "max_file_size"; "max_file_backups"; "errors_to_console";
   "file_format"; "stream_format"].

(** [_load_conf(logger_name)]; [env] is [conf.env] as it is read back after
    the reload. *)
Definition _load_conf (env : gmap string value) (logger_name : string)
    : result (gmap string value) :=
  let logging_conf := _default_conf in
  let yaml_conf := default (VDict ∅) (env !! "logging") in
  logging_conf ← dict_update logging_conf yaml_conf;
  match logging_conf !! logger_name with
  | Some per_logger => dict_update logging_conf per_logger
  | None => Ok logging_conf
  end.

Section Syslog.

(** Python's [int] on a [str]; [None] when the text is not a number. *)
Variable int_of_str : string → option Z.

(** [int(v)]. *)
Definition py_int (v : value) : result Z :=
  match v with
  | VInt n => Ok n
  | VBool b => Ok (if b then 1 else 0)%Z
  | VStr s =>
      match int_of_str s with
      | Some n => Ok n
      | None => Raise ValueError
      end
  | VNone | VDict _ => Raise TypeError
  end.

(** [_get_syslog_settings()]. *)
Definition _get_syslog_settings (env : gmap string value)
    : result (option (value * Z)) :=
  except_KeyError
    (syslog ← getitem env "syslog";
     address ← subscript syslog "address";
     port_value ← subscript syslog "port";
     port ← py_int port_value;
     Ok (Some (address, port)))
    (Ok None).

End Syslog.

(** A value that [dict.update] refuses: anything but a mapping and the empty
    string. *)
Definition scalar_option (v : value) : bool :=
  match v with
  | VDict _ => false
  | VStr s => negb (String.eqb s "")
  | VNone | VBool _ | VInt _ => true
  end.

End Conf.

(** ** The logger factory *)

Module Factory.
Import Conf.

Inductive formatter : Type :=
| Formatter (fmt : value)
| SyslogMsecFormatter (fmt : string).

Inductive handler_kind : Type :=
| RotatingFileHandler (filename : string) (maxBytes backupCount : value)
| SysLogHandler (address : value) (port : Z)
| StreamHandler.

(** A handler object; [handler_id] is its identity. *)
Record Handler : Type := mkHandler {
  handler_id : nat;
  kind : handler_kind;
  handler_level : Z;
  handler_formatter : formatter
}.

Inductive filter_kind : Type := RelpathFilter.

(** A logger object. *)
Record Logger : Type := mkLogger {
  name : string;
  level : Z;
  handlers : list Handler;
  filters : list filter_kind
}.

(** A reference to a logger object: the root logger, or an object of the
    heap by its position. *)
Inductive logger_ref : Type :=
| Root
| Obj (i : nat).

(** The state of the process: the registry [logging.root.manager.loggerDict]
    from names to logger objects, the logger objects ever made (a logger
    dropped from the registry lives on for those who hold it), the root
    logger, the number of handler objects made, and whether the log
    directory is there. The registry's bookkeeping of dotted ancestors
    touches no handler and is left out. *)
Record World : Type := mkWorld {
  loggerDict : gmap string nat;
  heap : list Logger;
  root : Logger;
  next_handler : nat;
  log_dir_exists : bool
}.

(** Computations that read and change the world and may raise. *)
Definition M (A : Type) : Type := World → result A * World.

#[global] Instance M_ret : MRet M := λ A a w, (Ok a, w).
#[global] Instance M_bind : MBind M := λ A B k m w,
  match m w with
  | (Ok a, w') => k a w'
  | (Raise e, w') => (Raise e, w')
  end.

Definition lift {A : Type} (r : result A) : M A := λ w, (r, w).

Definition set_loggerDict (d : gmap string nat) (w : World) : World :=
  {| loggerDict := d; heap := heap w; root := root w;
     next_handler := next_handler w; log_dir_exists := log_dir_exists w |}.

Definition set_heap (h : list Logger) (w : World) : World :=
  {| loggerDict := loggerDict w; heap := h; root := root w;
     next_handler := next_handler w; log_dir_exists := log_dir_exists w |}.

Definition set_root (l : Logger) (w : World) : World :=
  {| loggerDict := loggerDict w; heap := heap w; root := l;
     next_handler := next_handler w; log_dir_exists := log_dir_exists w |}.

(** [if logger_name in loggerDict: del loggerDict[logger_name]]. *)
Definition discard (logger_name : string) : M unit := λ w,
  match loggerDict w !! logger_name with
  | Some _ => (Ok (), set_loggerDict (delete logger_name (loggerDict w)) w)
  | None => (Ok (), w)
  end.

(** [log_path.ensure(dir=True)]. *)
Definition ensure_log_dir : M unit := λ w,
  (Ok (), {| loggerDict := loggerDict w; heap := heap w; root := root w;
             next_handler := next_handler w; log_dir_exists := true |}).

(** Making a handler object: it gets the next identity. *)
Definition new_handler (k : handler_kind) (lvl : Z) (f : formatter) : M Handler := λ w,
  (Ok (mkHandler (next_handler w) k lvl f),
   {| loggerDict := loggerDict w; heap := heap w; root := root w;
      next_handler := S (next_handler w); log_dir_exists := log_dir_exists w |}).

(** [logging.getLogger(name)]: the root logger for an empty name, the
    registered object when there is one, else a new logger without handlers
    that is entered into the registry. *)
Definition getLogger (logger_name : string) : M logger_ref := λ w,
  if String.eqb logger_name "" then (Ok Root, w)
  else
    match loggerDict w !! logger_name with
    | Some i => (Ok (Obj i), w)
    | None =>
        let i := List.length (heap w) in
        (Ok (Obj i),
         set_loggerDict (<[logger_name := i]> (loggerDict w))
           (set_heap (heap w ++ [mkLogger logger_name Level.NOTSET [] []]) w))
    end.

(** Changing the logger object behind a reference. *)
Definition update_logger (r : logger_ref) (f : Logger → Logger) : M unit := λ w,
  match r with
  | Root => (Ok (), set_root (f (root w)) w)
  | Obj i => (Ok (), set_heap (alter f i (heap w)) w)
  end.

Definition has_handler (h : Handler) (l : Logger) : bool :=
  existsb (λ h', Nat.eqb (handler_id h') (handler_id h)) (handlers l).

(** [Logger.addHandler]: a handler already attached is not attached again. *)
Definition addHandler (r : logger_ref) (h : Handler) : M unit :=
  update_logger r (λ l,
    if has_handler h l then l
    else mkLogger (name l) (level l) (handlers l ++ [h]) (filters l)).

(** [Logger.addFilter] with a new filter object. *)
Definition addFilter (r : logger_ref) (f : filter_kind) : M unit :=
  update_logger r (λ l, mkLogger (name l) (level l) (handlers l) (filters l ++ [f])).

(** [logging._checkLevel]. *)
Definition _checkLevel (v : value) : result Z :=
  match v with
  | VInt n => Ok n
  | VBool b => Ok (if b then 1 else 0)%Z
  | VStr s =>
      match Level.level_of_name s with
      | Some n => Ok n
      | None => Raise ValueError
      end
  | VNone | VDict _ => Raise TypeError
  end.

(** [Logger.setLevel]. *)
Definition setLevel (r : logger_ref) (v : value) : M unit :=
  n ← lift (_checkLevel v);
  update_logger r (λ l, mkLogger (name l) n (handlers l) (filters l)).

Section CreateLogger.

Variable int_of_str : string → option Z.

(** [utils.path.log_path], the directory of the log files. *)
Variable log_path : string.

(** [create_logger(logger_name, filename, max_file_size, max_backups)].
    [env] is the configuration read back by the reload, [lid] the eight
    random characters drawn by [fauxfactory.gen_alphanumeric(8)]. *)
Definition create_logger (logger_name : string) (filename : option string)
    (max_file_size max_backups : option Z)
    (env : gmap string value) (lid : string) : M logger_ref :=
  discard logger_name;;
  conf ← lift (_load_conf env logger_name);
  ensure_log_dir;;
  let log_file :=
    match filename with
    | Some f => if String.eqb f "" then log_path +:+ "/" +:+ logger_name +:+ ".log" else f
    | None => log_path +:+ "/" +:+ logger_name +:+ ".log"
    end in
  file_format ← lift (getitem conf "file_format");
  let file_formatter := Formatter file_format in
  maxBytes ← lift (py_or max_file_size (getitem conf "max_file_size"));
  backupCount ← lift (py_or max_backups (getitem conf "max_file_backups"));
  file_handler ← new_handler (RotatingFileHandler log_file maxBytes backupCount)
                    Level.NOTSET file_formatter;
  logger ← getLogger logger_name;
  addHandler logger file_handler;;
  syslog_settings ← lift (_get_syslog_settings int_of_str env);
  match syslog_settings with
  | Some (address, port) =>
      let fmt := "%(asctime)s [" +:+ lid +:+ "] %(message)s" in
      let syslog_formatter := SyslogMsecFormatter fmt in
      syslog_handler ← new_handler (SysLogHandler address port)
                         Level.NOTSET syslog_formatter;
      addHandler logger syslog_handler
  | None => mret ()
  end;;
  lvl ← lift (getitem conf "level");
  setLevel logger lvl;;
  errors_to_console ← lift (getitem conf "errors_to_console");
  (if truthy errors_to_console then
     stream_format ← lift (getitem conf "stream_format");
     let stream_formatter := Formatter stream_format in
     stream_handler ← new_handler StreamHandler Level.ERROR stream_formatter;
     addHandler logger stream_handler
   else mret ());;
  addFilter logger RelpathFilter;;
  mret logger.

End CreateLogger.

(** The logger object behind a reference. *)
Definition deref (w : World) (r : logger_ref) : option Logger :=
  match r with
  | Root => Some (root w)
  | Obj i => heap w !! i
  end.

Definition is_file (h : Handler) : bool :=
  match kind h with RotatingFileHandler _ _ _ => true | _ => false end.
Definition is_syslog (h : Handler) : bool :=
  match kind h with SysLogHandler _ _ => true | _ => false end.
Definition is_stream (h : Handler) : bool :=
  match kind h with StreamHandler => true | _ => false end.

(** How many handlers of a logger satisfy [p]. *)
Definition count_handlers (p : Handler → bool) (l : Logger) : nat :=
  List.length (List.filter p (handlers l)).

(** [Logger.callHandlers] on the logger's own handlers: those whose level
    lets a record of level [record_level] through, in the order in which
    they get it. *)
Definition callHandlers (l : Logger) (record_level : Z) : list Handler :=
  List.filter (λ h, (handler_level h <=? record_level)%Z) (handlers l).

(** Python 2 orders [None] below the numbers and the numbers below every
    other type: [v > 0] and [k >= v] for an integer [k]. *)
Definition gt_zero (v : value) : bool :=
  match v with
  | VNone => false
  | VBool b => b
  | VInt n => (0 <? n)%Z
  | VStr _ | VDict _ => true
  end.

Definition int_ge (k : Z) (v : value) : bool :=
  match v with
  | VNone => true
  | VBool b => ((if b then 1 else 0) <=? k)%Z
  | VInt n => (n <=? k)%Z
  | VStr _ | VDict _ => false
  end.

(** [RotatingFileHandler.shouldRollover] for a file of [file_size] bytes and
    a formatted message of [msg_len] bytes. *)
Definition shouldRollover (maxBytes : value) (file_size msg_len : Z) : bool :=
  if gt_zero maxBytes then int_ge (file_size + msg_len) maxBytes else false.

(** The rotation threshold and the backup count of the file handlers of a
    logger. *)
Definition file_limits (l : Logger) : list (value * value) :=
  omap (λ h, match kind h with
             | RotatingFileHandler _ mb bc => Some (mb, bc)
             | _ => None
             end) (handlers l).

(** Whether the configuration asks for the syslog and the console sink. *)
Definition wants_syslog (int_of_str : string → option Z)
    (env : gmap string value) : bool :=
  match _get_syslog_settings int_of_str env with
  | Ok (Some _) => true
  | _ => false
  end.

Definition wants_console (env : gmap string value) (logger_name : string) : bool :=
  match _load_conf env logger_name with
  | Ok conf =>
      match getitem conf "errors_to_console" with
      | Ok v => truthy v
      | Raise _ => false
      end
  | Raise _ => false
  end.

(** The handlers a fresh logger gets from [create_logger], the first of them
    with identity [first_id]: the file handler, then the syslog handler and
    the console handler when the configuration asks for them. *)
Definition handlers_shape (int_of_str : string → option Z)
    (env : gmap string value) (logger_name : string) (first_id : nat)
    (hs : list Handler) : Prop :=
  ∃ fh sys con,
    hs = fh :: sys ++ con
    ∧ is_file fh = true ∧ handler_id fh = first_id
    ∧ (if wants_syslog int_of_str env
       then ∃ sh, sys = [sh] ∧ is_syslog sh = true ∧ handler_id sh = S first_id
       else sys = [])
    ∧ (if wants_console env logger_name
       then ∃ ch, con = [ch] ∧ is_stream ch = true
                  ∧ handler_level ch = Level.ERROR
                  ∧ handler_id ch = S first_id + List.length sys
       else con = []).

(** The environment leaves the option [key] a value that is neither a
    mapping nor the empty string, if it sets it at all. *)
Definition keeps_scalar (env : gmap string value) (key : string) : Prop :=
  ∀ d v, env !! "logging" = Some (VDict d) → d !! key = Some v →
    scalar_option v = true.

(** An environment that asks for rotation at 1000 bytes with 3 backups. *)
Definition env_rotating : gmap string value :=
  <["logging" := VDict (<["max_file_size" := VInt 1000]>
                        (<["max_file_backups" := VInt 3]> ∅))]> ∅.

(** An environment with a syslog address and the console sink switched on. *)
Definition env_all_sinks : gmap string value :=
  <["logging" := VDict (<["errors_to_console" := VBool true]> ∅)]>
  (<["syslog" := VDict (<["address" := VStr "logs.example.com"]>
                        (<["port" := VInt 514]> ∅))]> ∅).

(** A process in which no logger has been made yet. *)
Definition empty_world : World :=
  {| loggerDict := ∅; heap := [];
     root := mkLogger "root" Level.WARNING [] [];
     next_handler := 0; log_dir_exists := false |}.

End Factory.

(** ** The artifact-forwarding adapter *)

Module Adapter.
Import Relpath.

(** The [extra] dictionary of a logging call, as far as the module reads and
    writes it: a key that is missing is [None]. *)
Record Extra : Type := mkExtra {
  x_source_file : option string;
  x_source_lineno : option (option Z)
}.

(** The keyword arguments of a logging call; [kw_extra = None] says that no
    [extra] was passed. *)
Record Kwargs : Type := mkKwargs {
  kw_extra : option Extra;
  kw_exc_info : option Z
}.

(** What [nth_frame_info] reports about a stack frame. *)
Record FrameInfo : Type := mkFrameInfo {
  frame_filename : string;
  frame_lineno : Z
}.

(** The record handed to the artifact collector; [art_extra = None] stands
    for the empty string that replaces a missing [extra]. *)
Record ArtRecord : Type := mkArtRecord {
  art_level : string;
  art_message : string;
  art_extra : option Extra
}.

(** The methods of the wrapped logger. *)
Inductive logger_method : Type :=
| m_log (lvl : Z)
| m_trace
| m_debug
| m_info
| m_warning
| m_error
| m_critical.

(** What the adapter does to the outside, in order. *)
Inductive event : Type :=
| FireHook (hook : string) (log_record : ArtRecord) (slaveid : string)
| LoggerCall (m : logger_method) (msg : string) (args : list string) (kwargs : Kwargs).

(** Computations that extend the sequence of events and may raise. *)
Definition T (A : Type) : Type := list event → result A * list event.

#[global] Instance T_ret : MRet T := λ A a tr, (Ok a, tr).
#[global] Instance T_bind : MBind T := λ A B k m tr,
  match m tr with
  | (Ok a, tr') => k a tr'
  | (Raise e, tr') => (Raise e, tr')
  end.

Definition lift {A : Type} (r : result A) : T A := λ tr, (r, tr).

Definition emit (e : event) : T unit := λ tr, (Ok (), (tr ++ [e])%list).

(** Truth value of [extra.get('source_file')]. *)
Definition has_source_file (extra : Extra) : bool :=
  match x_source_file extra with
  | Some f => negb (String.eqb f "")
  | None => false
  end.

Section Methods.

Variable get_rel_path : string → string.

(** [utils.safe_string], whose body is outside the module. *)
Variable safe_string : string → string.

(** The outcome of the imports behind the cached properties [artifactor] and
    [slaveid] (the latter already with [SLAVEID or ""] applied). *)
Variable import_art_client : result unit.
Variable import_SLAVEID : result string.

(** The collector's answer to [fire_hook]. *)
Variable fire_hook : string → ArtRecord → string → result unit.

(** [ArtifactorLoggerAdapter.process]; [frameinfo] is [nth_frame_info(3)],
    the frame of the original logging call. *)
Definition process (frameinfo : FrameInfo) (msg : string) (kwargs : Kwargs)
    : string * Kwargs :=
  let extra := default (mkExtra None None) (kw_extra kwargs) in
  let extra :=
    if negb (has_source_file extra) then
      if negb (String.eqb (frame_filename frameinfo) "") then
        mkExtra (Some (get_rel_path (frame_filename frameinfo)))
                (Some (Some (frame_lineno frameinfo)))
      else
        mkExtra (Some "unknown") (Some (Some 0%Z))
    else extra in
  (msg, mkKwargs (Some extra) (kw_exc_info kwargs)).

(** [ArtifactorLoggerAdapter.art_log]. *)
Definition art_log (level_name message : string) (kwargs : Kwargs) : T unit :=
  let art_log_record :=
    mkArtRecord level_name (safe_string message) (kw_extra kwargs) in
  lift import_art_client;;
  slaveid ← lift import_SLAVEID;
  emit (FireHook "log_message" art_log_record slaveid);;
  lift (fire_hook "log_message" art_log_record slaveid).

(** A call of a method of the wrapped logger. *)
Definition logger_call (m : logger_method) (msg : string) (args : list string)
    (kwargs : Kwargs) : T unit :=
  emit (LoggerCall m msg args kwargs).

Definition log (frameinfo : FrameInfo) (lvl : Z) (msg : string) (args : list string)
    (kwargs : Kwargs) : T unit :=
  let level_name := Level.level_name_lower lvl in
  let '(msg, kwargs) := process frameinfo msg kwargs in
  art_log level_name msg kwargs;;
  logger_call (m_log lvl) msg args kwargs.

Definition trace (frameinfo : FrameInfo) (msg : string) (args : list string)
    (kwargs : Kwargs) : T unit :=
  let '(msg, kwargs) := process frameinfo msg kwargs in
  art_log "trace" msg kwargs;;
  logger_call m_trace msg args kwargs.

Definition debug (frameinfo : FrameInfo) (msg : string) (args : list string)
    (kwargs : Kwargs) : T unit :=
  let '(msg, kwargs) := process frameinfo msg kwargs in
  art_log "debug" msg kwargs;;
  logger_call m_debug msg args kwargs.

Definition info (frameinfo : FrameInfo) (msg : string) (args : list string)
    (kwargs : Kwargs) : T unit :=
  let '(msg, kwargs) := process frameinfo msg kwargs in
  art_log "info" msg kwargs;;
  logger_call m_info msg args kwargs.

Definition warning (frameinfo : FrameInfo) (msg : string) (args : list string)
    (kwargs : Kwargs) : T unit :=
  let '(msg, kwargs) := process frameinfo msg kwargs in
  art_log "warning" msg kwargs;;
  logger_call m_warning msg args kwargs.

Definition error (frameinfo : FrameInfo) (msg : string) (args : list string)
    (kwargs : Kwargs) : T unit :=
  let '(msg, kwargs) := process frameinfo msg kwargs in
  art_log "error" msg kwargs;;
  logger_call m_error msg args kwargs.

Definition critical (frameinfo : FrameInfo) (msg : string) (args : list string)
    (kwargs : Kwargs) : T unit :=
  let '(msg, kwargs) := process frameinfo msg kwargs in
  art_log "critical" msg kwargs;;
  logger_call m_critical msg args kwargs.

Definition exception (frameinfo : FrameInfo) (msg : string) (args : list string)
    (kwargs : Kwargs) : T unit :=
  let kwargs := mkKwargs (kw_extra kwargs) (Some 1%Z) in
  let '(msg, kwargs) := process frameinfo msg kwargs in
  art_log "error" msg kwargs;;
  logger_call m_error msg args kwargs.

(** The severity methods of the adapter by name. *)
Inductive severity : Type :=
| Trace | Debug | Info | Warning | Error | Critical | Exception | Log (lvl : Z).

Definition call (s : severity) (frameinfo : FrameInfo) (msg : string)
    (args : list string) (kwargs : Kwargs) : T unit :=
  match s with
  | Trace => trace frameinfo msg args kwargs
  | Debug => debug frameinfo msg args kwargs
  | Info => info frameinfo msg args kwargs
  | Warning => warning frameinfo msg args kwargs
  | Error => error frameinfo msg args kwargs
  | Critical => critical frameinfo msg args kwargs
  | Exception => exception frameinfo msg args kwargs
  | Log lvl => log frameinfo lvl msg args kwargs
  end.

(** The method of the wrapped logger a severity method ends in, and the name
    under which it reports to the collector. *)
Definition wrapped_method (s : severity) : logger_method :=
  match s with
  | Trace => m_trace
  | Debug => m_debug
  | Info => m_info
  | Warning => m_warning
  | Error => m_error
  | Critical => m_critical
  | Exception => m_error
  | Log lvl => m_log lvl
  end.

Definition reported_level (s : severity) : string :=
  match s with
  | Trace => "trace"
  | Debug => "debug"
  | Info => "info"
  | Warning => "warning"
  | Error => "error"
  | Critical => "critical"
  | Exception => "error"
  | Log lvl => Level.level_name_lower lvl
  end.

(** The keyword arguments with which a severity method enters [process]. *)
Definition entry_kwargs (s : severity) (kwargs : Kwargs) : Kwargs :=
  match s with
  | Exception => mkKwargs (kw_extra kwargs) (Some 1%Z)
  | _ => kwargs
  end.

End Methods.

(** The level of the record a method of the wrapped logger makes. *)
Definition method_level (m : logger_method) : Z :=
  match m with
  | m_log lvl => lvl
  | m_trace => Level.TRACE
  | m_debug => Level.DEBUG
  | m_info => Level.INFO
  | m_warning => Level.WARNING
  | m_error => Level.ERROR
  | m_critical => Level.CRITICAL
  end.

(** [Logger.makeRecord] on a call of the wrapped logger: [caller] is the call
    site found by the logging library, and the keys of [extra] become
    attributes of the record. *)
Definition makeRecord (caller : FrameInfo) (m : logger_method) (msg : string)
    (kwargs : Kwargs) : LogRecord :=
  let extra := default (mkExtra None None) (kw_extra kwargs) in
  {| levelno := method_level m; msg := msg;
     pathname := frame_filename caller; lineno := frame_lineno caller;
     source_file := x_source_file extra;
     source_lineno := x_source_lineno extra;
     source := None |}.

Definition was_logged (e : event) : bool :=
  match e with
  | LoggerCall _ _ _ _ => true
  | FireHook _ _ _ => false
  end.

(** A collector that is down. *)
Definition collector_down : string → ArtRecord → string → result unit :=
  λ _ _ _, Raise (CollectorError "connection refused").

(** A collector that takes every record. *)
Definition collector_up : string → ArtRecord → string → result unit :=
  λ _ _ _, Ok ().

End Adapter.

(** ** Named sub-loggers *)

Module Sublogger.
Import Conf Factory.

(** A [NamedLoggerAdapter]: the logger it wraps and the name it was given
    (its [extra]). *)
Record NamedLoggerAdapter : Type := mkNamedLoggerAdapter {
  adapter_logger : logger_ref;
  adapter_extra : string
}.

(** [NamedLoggerAdapter.process]: ['(%s) %s' % (self.extra, message)]; the
    keyword arguments go through as they are. *)
Definition named_process {K : Type} (a : NamedLoggerAdapter) (message : string)
    (kwargs : K) : string * K :=
  ("(" +:+ adapter_extra a +:+ ") " +:+ message, kwargs).

Section CreateSublogger.

Variable int_of_str : string → option Z.
Variable log_path : string.

(** [create_sublogger(logger_sub_name, logger_name='cfme')]. *)
Definition create_sublogger (logger_sub_name logger_name : string)
    (env : gmap string value) (lid : string) : M NamedLoggerAdapter :=
  logger ← create_logger int_of_str log_path logger_name None None None env lid;
  mret (mkNamedLoggerAdapter logger logger_sub_name).

End CreateSublogger.

End Sublogger.

(** ** The warning hook and the exception hook *)

Module Hooks.
Import Relpath Adapter.

(** What the hooks do to the outside: what the adapter does, a line printed
    to the console, a call of the exception hook that was installed
    before. *)
Inductive io : Type :=
| FromAdapter (e : event)
| Printed (line : string)
| OriginalExcepthook (type_name : string).

Definition H (A : Type) : Type := list io → result A * list io.

#[global] Instance H_ret : MRet H := λ A a tr, (Ok a, tr).
#[global] Instance H_bind : MBind H := λ A B k m tr,
  match m tr with
  | (Ok a, tr') => k a tr'
  | (Raise e, tr') => (Raise e, tr')
  end.

(** A call of an adapter method from a hook: its events follow the ones of
    the hook. *)
Definition of_adapter {A : Type} (m : T A) : H A := λ tr,
  let '(r, es) := m [] in (r, tr ++ (FromAdapter <$> es)).

Definition print (line : string) : H unit := λ tr, (Ok (), tr ++ [Printed line]).

Definition call_original_excepthook (type_name : string) : H unit := λ tr,
  (Ok (), tr ++ [OriginalExcepthook type_name]).

(** [try: body except ImportError: handler]. *)
Definition except_ImportError {A : Type} (body handler : H A) : H A := λ tr,
  match body tr with
  | (Raise ImportError, tr') => handler tr'
  | other => other
  end.

(** An entry of [traceback.extract_tb]. *)
Record tb_entry : Type := mkTbEntry {
  tb_file : string;
  tb_lineno : Z;
  tb_function : string;
  tb_text : string
}.

Section HookBodies.

Variable get_rel_path : string → string.
Variable safe_string : string → string.
Variable import_art_client : result unit.
Variable import_SLAVEID : result string.
Variable fire_hook : string → ArtRecord → string → result unit.

(** [''.join(format_tb(traceback)).strip()], the text of a traceback. *)
Variable format_tb_text : list tb_entry → string.

(** [_showwarning(message, category, filename, lineno)]; [category_name] is
    [category.__name__] and [frameinfo] the frame of the hook itself, which
    is what the adapter finds three frames up. *)
Definition _showwarning (frameinfo : FrameInfo) (message category_name
    filename : string) (lineno : Z) : H unit :=
  let relpath := get_rel_path filename in
  if negb (String.eqb relpath "") then
    let message :=
      category_name +:+ " from " +:+ relpath +:+ ":" +:+ pretty lineno
      +:+ ": " +:+ message in
    except_ImportError
      (of_adapter (warning get_rel_path safe_string import_art_client
                     import_SLAVEID fire_hook frameinfo message []
                     (mkKwargs None None)))
      (print ("[WARNING] " +:+ message))
  else mret ().

(** [_custom_excepthook(type, value, traceback)]; [type_name] is
    [type.__name__], [traceback] what [extract_tb] makes of the traceback,
    and [frame1], [frame2] the frame of the hook at its two logging
    calls. *)
Definition _custom_excepthook (frame1 frame2 : FrameInfo) (type_name : string)
    (traceback : list tb_entry) : H unit :=
  match last traceback with
  | None => λ tr, (Raise IndexError, tr)
  | Some entry =>
      let file := tb_file entry in
      let lineno := tb_lineno entry in
      let text := format_tb_text traceback in
      of_adapter (error get_rel_path safe_string import_art_client
                    import_SLAVEID fire_hook frame1
                    ("Unhandled " +:+ type_name) [] (mkKwargs None None));;
      of_adapter (error get_rel_path safe_string import_art_client
                    import_SLAVEID fire_hook frame2 text []
                    (mkKwargs (Some (mkExtra (Some file) (Some (Some lineno))))
                       None));;
      call_original_excepthook type_name
  end.

End HookBodies.

Definition is_original_hook (e : io) : bool :=
  match e with OriginalExcepthook _ => true | _ => false end.

Definition is_printed (e : io) : bool :=
  match e with Printed _ => true | _ => false end.

Definition is_logged (e : io) : bool :=
  match e with FromAdapter e' => was_logged e' | _ => false end.

End Hooks.

(** ** The syslog time stamp *)

Module SyslogFormat.

(** ["%03d" % n]: the decimal digits of [n], with zeros in front up to three
    characters, the sign counted in. *)
Definition fmt_03d (n : Z) : string :=
  let digits := pretty (Z.abs n) in
  let sign := if (n <? 0)%Z then "-" else "" in
  sign +:+ str_repeat "0" (3 - String.length sign - String.length digits)
  +:+ digits.

(** Reading a run of decimal digits back as a number. *)
Fixpoint digits_value (acc : Z) (s : string) : Z :=
  match s with
  | "" => acc
  | String c rest =>
      digits_value (10 * acc + (Z.of_nat (nat_of_ascii c) - 48))%Z rest
  end.

Section FormatTime.

(** The time of a record as [converter] gives it, and [ct.strftime]. *)
Context {time : Type}.
Variable strftime : time → string → string.

(** [SyslogMsecFormatter.formatTime(record, datefmt)]: [ct] is
    [converter(record.created)] and [msecs] the whole part of
    [record.msecs], which is what [%d] prints. *)
Definition formatTime (ct : time) (msecs : Z) (datefmt : option string) : string :=
  match datefmt with
  | Some f =>
      if negb (String.eqb f "") then strftime ct f
      else strftime ct "%Y-%m-%d %H:%M:%S" +:+ "." +:+ fmt_03d msecs
  | None => strftime ct "%Y-%m-%d %H:%M:%S" +:+ "." +:+ fmt_03d msecs
  end.

End FormatTime.

End SyslogFormat.

(** ** Migration 0044: the type of a template *)

Module Migration.

(** A row of the [Template] table as the migration reads and writes it;
    [provider_type] is the column reached through the provider. [None] is
    the database's null. *)
Record Template : Type := mkTemplate {
  container : option string;
  provider_type : option string;
  template_type : string
}.

Definition set_container (c : option string) (t : Template) : Template :=
  mkTemplate c (provider_type t) (template_type t).

Definition set_template_type (ty : string) (t : Template) : Template :=
  mkTemplate (container t) (provider_type t) ty.

(** [queryset.update(...)]: the rows the query selects are changed, the
    others are kept, in one statement. *)
Definition update (selected : Template → bool) (change : Template → Template)
    (table : list Template) : list Template :=
  map (λ t, if selected t then change t else t) table.

Definition container_is (c : string) (t : Template) : bool :=
  match container t with Some c' => String.eqb c' c | None => false end.

Definition container_is_null (t : Template) : bool :=
  match container t with Some _ => false | None => true end.

Definition provider_type_is (p : string) (t : Template) : bool :=
  match provider_type t with Some p' => String.eqb p' p | None => false end.

(** [add_type_to_template]: the four updates in order. [filter] keeps the
    rows that match, [exclude] with two conditions drops the rows that match
    both. *)
Definition add_type_to_template (table : list Template) : list Template :=
  let table :=
    update (container_is "") (set_container None) table in
  let table :=
    update container_is_null (set_template_type "virtual_machine") table in
  let table :=
    update (λ t, negb (container_is_null t && provider_type_is "openshift" t))
      (set_template_type "docker_vm") table in
  update (λ t, negb (container_is_null t) && provider_type_is "openshift" t)
    (set_template_type "openshift_pod") table.

(** What the four updates together leave of one row. *)
Definition migrated_row (t : Template) : Template :=
  let c := if container_is "" t then None else container t in
  let ty :=
    match c with
    | None => if provider_type_is "openshift" t then "virtual_machine" else "docker_vm"
    | Some _ => if provider_type_is "openshift" t then "openshift_pod" else "docker_vm"
    end in
  mkTemplate c (provider_type t) ty.

End Migration.

(** * Part II: properties *)

(** ** String helper lemmas *)

Lemma str_repeat_length c n : String.length (str_repeat c n) = n.
Proof. induction n as [|n IH]; simpl; [reflexivity | by f_equal]. Qed.

Lemma str_app_cons (a : ascii) (s t : string) :
  String a s +:+ t = String a (s +:+ t).
Proof. reflexivity. Qed.

Lemma str_app_length (s t : string) :
  String.length (s +:+ t) = String.length s + String.length t.
Proof.
  induction s as [|a s IH]; [reflexivity|].
  rewrite str_app_cons. simpl. by f_equal.
Qed.

(** ** Marker formatter *)

Module MarkerFacts.
Import Marker.

Lemma str_app_empty_r (s : string) : s +:+ "" = s.
Proof.
  induction s as [|a s IH]; [reflexivity|].
  rewrite str_app_cons. by f_equal.
Qed.

Lemma spec_fill_char (c : ascii) :
  c ≠ "{"%char → c ≠ "}"%char → spec_fill (String c "") = Ok c.
Proof.
  intros Hl Hr. unfold spec_fill.
  destruct (Ascii.eqb_spec c "{"); [done|].
  destruct (Ascii.eqb_spec c "}"); [done|].
  reflexivity.
Qed.

Lemma format_marker_fits (s : string) (c : ascii) :
  (String.length s ≤ MARKER_LEN - 2)%nat → c ≠ "{"%char → c ≠ "}"%char →
  format_marker s (String c "")
  = Ok (str_center (" " +:+ s +:+ " ") c MARKER_LEN).
Proof.
  intros Hlen Hl Hr. unfold format_marker.
  destruct (Nat.leb_spec (String.length s) (MARKER_LEN - 2)) as [_|Hgt]; [|lia].
  by rewrite spec_fill_char.
Qed.

Lemma padded_length (s : string) :
  String.length (" " +:+ s +:+ " ") = String.length s + 2.
Proof. rewrite !str_app_length. simpl. lia. Qed.

Lemma format_marker_long (s mark : string) :
  (MARKER_LEN - 2 < String.length s)%nat → format_marker s mark = Ok s.
Proof.
  intros H. unfold format_marker.
  destruct (Nat.leb_spec (String.length s) (MARKER_LEN - 2)); [lia | reflexivity].
Qed.

Example format_marker_hello :
  format_marker "hi" default_mark
  = Ok (str_repeat "-" 38 +:+ " hi " +:+ str_repeat "-" 38).
Proof. reflexivity. Qed.

Example format_marker_odd :
  format_marker "odd" default_mark
  = Ok (str_repeat "-" 37 +:+ " odd " +:+ str_repeat "-" 38).
Proof. reflexivity. Qed.

Example format_marker_brace : format_marker "hi" "{" = Raise ValueError.
Proof. reflexivity. Qed.

(** C7: for every string [s] shorter than [MARKER_LEN - 2] = 78 characters
    (the non-empty ones among them) and every mark character [c] that the
    format template admits, [format_marker] returns [s] with one space on
    each side, between [pad / 2] marks on the left and the remaining marks
    on the right; the result has exactly [MARKER_LEN] = 80 characters, the
    two runs of marks differ by at most one, and there is at least one
    mark. *)
Theorem format_marker_centered (s : string) (c : ascii) :
  s ≠ "" →
  (String.length s < MARKER_LEN - 2)%nat →
  c ≠ "{"%char → c ≠ "}"%char →
  let pad := MARKER_LEN - (String.length s + 2) in
  let out := str_repeat c (pad / 2) +:+ (" " +:+ s +:+ " ")
             +:+ str_repeat c (pad - pad / 2) in
  format_marker s (String c "") = Ok out
  ∧ String.length out = MARKER_LEN
  ∧ (pad / 2 ≤ pad - pad / 2 ≤ pad / 2 + 1)%nat
  ∧ (0 < pad - pad / 2)%nat.
Proof.
  intros _ Hlen Hl Hr pad out.
  assert (Hpad : (0 < pad)%nat) by (unfold pad, MARKER_LEN in *; lia).
  assert (Hhalf : (pad / 2 ≤ pad - pad / 2 ≤ pad / 2 + 1)%nat
                  ∧ (0 < pad - pad / 2)%nat).
  { pose proof (Nat.div_mod_eq pad 2) as Hd.
    pose proof (Nat.mod_upper_bound pad 2) as Hm. lia. }
  split; [|split; [|exact Hhalf]].
  - rewrite format_marker_fits by (done || lia).
    unfold str_center. rewrite padded_length. reflexivity.
  - unfold out. rewrite !str_app_length, !str_repeat_length.
    simpl String.length. unfold pad, MARKER_LEN in *. lia.
Qed.

Lemma format_marker_centered_witness :
  "hi" ≠ "" ∧ (String.length "hi" < MARKER_LEN - 2)%nat
  ∧ format_marker "hi" "-"
    = Ok (str_repeat "-" 38 +:+ (" " +:+ "hi" +:+ " ") +:+ str_repeat "-" 38).
Proof.
  assert (H1 : "hi" ≠ "") by discriminate.
  assert (H2 : (String.length "hi" < MARKER_LEN - 2)%nat)
    by (unfold MARKER_LEN; simpl; lia).
  split; [exact H1|]. split; [exact H2|].
  refine (proj1 (format_marker_centered "hi" "-" H1 H2 _ _)); discriminate.
Defined.

(** C4, at the threshold: a string of exactly [MARKER_LEN - 2] = 78
    characters does not come back unchanged; it comes back between two
    spaces, 80 characters long. *)
Theorem format_marker_threshold_padded (s : string) :
  String.length s = MARKER_LEN - 2 →
  format_marker s default_mark = Ok (" " +:+ s +:+ " ")
  ∧ format_marker s default_mark ≠ Ok s.
Proof.
  intros Hlen.
  assert (Heq : format_marker s default_mark = Ok (" " +:+ s +:+ " ")).
  { unfold default_mark. rewrite format_marker_fits by (lia || discriminate).
    unfold str_center. rewrite padded_length, Hlen. simpl str_repeat.
    by rewrite str_app_empty_r. }
  split; [exact Heq|].
  rewrite Heq. intros [= H].
  apply (f_equal String.length) in H. rewrite padded_length in H. lia.
Qed.

Lemma format_marker_threshold_padded_witness :
  String.length (str_repeat "x" 78) = (MARKER_LEN - 2)%nat
  ∧ format_marker (str_repeat "x" 78) default_mark
    = Ok (" " +:+ str_repeat "x" 78 +:+ " ")
  ∧ format_marker (str_repeat "x" 78) default_mark ≠ Ok (str_repeat "x" 78).
Proof.
  assert (H : String.length (str_repeat "x" 78) = (MARKER_LEN - 2)%nat)
    by reflexivity.
  split; [exact H|].
  exact (format_marker_threshold_padded (str_repeat "x" 78) H).
Defined.

End MarkerFacts.

(** ** Source-attribution filter *)

Module RelpathFacts.
Import Relpath.

Section FilterFacts.

Variable get_rel_path : string → string.

Lemma provenance_supplied (r : LogRecord) (f : string) (l : option Z) :
  source_file r = Some f → source_lineno r = Some l →
  provenance get_rel_path r = Ok (get_rel_path f, l).
Proof. intros Hf Hl. unfold provenance. by rewrite Hf, Hl. Qed.

Lemma provenance_fallback (r : LogRecord) :
  source_file r = None ∨ source_lineno r = None →
  provenance get_rel_path r = Ok (get_rel_path (pathname r), Some (lineno r)).
Proof.
  intros [H|H]; unfold provenance; rewrite H; simpl; [done|].
  by destruct (source_file r).
Qed.

(** Every record has a provenance: the [try] block raises nothing but the
    [AttributeError] that the [except] clause takes care of. *)
Lemma provenance_total (r : LogRecord) :
  ∃ relpath l, provenance get_rel_path r = Ok (relpath, l).
Proof.
  destruct (source_file r) as [f|] eqn:Hf.
  - destruct (source_lineno r) as [l|] eqn:Hl.
    + eexists _, _. by apply provenance_supplied.
    + eexists _, _. apply provenance_fallback. by right.
  - eexists _, _. apply provenance_fallback. by left.
Qed.

Lemma filter_of_provenance (r : LogRecord) (relpath : string) (l : option Z) :
  provenance get_rel_path r = Ok (relpath, l) →
  filter get_rel_path r = Ok (true, set_source (source_of relpath l) r).
Proof.
  intros H. unfold filter. rewrite H. simpl.
  destruct l as [n|]; simpl; [|done].
  by destruct (n =? 0)%Z.
Qed.

(** C2, as the code has it: a record that carries both [source_file] and
    [source_lineno] (the latter possibly [None]) gets its source string from
    these two, the path through [get_rel_path]; a record that lacks either
    attribute gets it from the captured [pathname] and [lineno]. *)
Theorem filter_uses_supplied_pair (r : LogRecord) :
  (∀ f l, source_file r = Some f → source_lineno r = Some l →
     filter get_rel_path r
     = Ok (true, set_source (source_of (get_rel_path f) l) r))
  ∧ (source_file r = None ∨ source_lineno r = None →
     filter get_rel_path r
     = Ok (true, set_source
                   (source_of (get_rel_path (pathname r)) (Some (lineno r))) r)).
Proof.
  split.
  - intros f l Hf Hl. apply filter_of_provenance. by apply provenance_supplied.
  - intros H. apply filter_of_provenance. by apply provenance_fallback.
Qed.


(** The zero line number: the path alone. *)
Lemma filter_zero_lineno (r : LogRecord) (relpath : string) :
  provenance get_rel_path r = Ok (relpath, Some 0%Z) →
  filter get_rel_path r = Ok (true, set_source relpath r).
Proof. intros H. by rewrite (filter_of_provenance _ _ _ H). Qed.

End FilterFacts.

Example fmt_source_example : fmt_source "cfme/base.py" 12 = "cfme/base.py:12".
Proof. reflexivity. Qed.

Example fmt_source_negative : fmt_source "x.py" (-3) = "x.py:-3".
Proof. reflexivity. Qed.

Example get_rel_path_under_inside :
  get_rel_path_under "/proj" "/proj/cfme/base.py" = "cfme/base.py".
Proof. reflexivity. Qed.

Example get_rel_path_under_outside :
  get_rel_path_under "/proj" "/usr/lib/python2.7/os.py" = "/usr/lib/python2.7/os.py".
Proof. reflexivity. Qed.

Lemma filter_uses_supplied_pair_witness :
  filter (get_rel_path_under "/proj") (record_both (Some 7%Z))
  = Ok (true, set_source "cfme/tests/test_x.py:7" (record_both (Some 7%Z)))
  ∧ filter (get_rel_path_under "/proj") (record_both None)
    = Ok (true, set_source "cfme/tests/test_x.py" (record_both None))
  ∧ filter (get_rel_path_under "/proj") record_plain
    = Ok (true, set_source "cfme/base.py:12" record_plain).
Proof.
  split; [|split].
  - exact (proj1 (filter_uses_supplied_pair (get_rel_path_under "/proj")
                    (record_both (Some 7%Z))) _ _ eq_refl eq_refl).
  - exact (proj1 (filter_uses_supplied_pair (get_rel_path_under "/proj")
                    (record_both None)) _ _ eq_refl eq_refl).
  - exact (proj2 (filter_uses_supplied_pair (get_rel_path_under "/proj")
                    record_plain) (or_introl eq_refl)).
Defined.

(** C2, as it is worded, fails: a record with a [source_file] and no
    [source_lineno] gets its source string from the call site inside the
    logging module, and the supplied file is not used. *)
Lemma filter_file_only_falls_back :
  source_file record_file_only = Some "/proj/cfme/tests/test_x.py"
  ∧ filter (get_rel_path_under "/proj") record_file_only
    = Ok (true, set_source "utils/log.py:499" record_file_only)
  ∧ ¬ source_file_decides (get_rel_path_under "/proj") record_file_only.
Proof.
  split; [reflexivity|]. split; [reflexivity|].
  intros H. destruct (H _ eq_refl) as (r' & suffix & Hrun & Hsrc).
  vm_compute in Hrun. injection Hrun as <-.
  vm_compute in Hsrc. discriminate Hsrc.
Qed.

End RelpathFacts.

(** ** Performance timer *)

Module PerfFacts.
Import Perf.

Section TimerFacts.

Context {timestamp : Type}.
Variable elapsed : timestamp → timestamp → timestamp.

(** C8: stopping an event that is not tracked returns [None] and raises
    nothing; the one thing it does is a call of the logger's [error] method,
    and the tracked events are what they were. *)
Theorem stop_untracked (event_name : string) (now : timestamp)
    (st : PerfState (timestamp := timestamp)) :
  tracking_events st !! event_name = None →
  stop elapsed event_name now st
  = (None,
     {| tracking_events := tracking_events st;
        perf_calls :=
          perf_calls st
          ++ [mkLogCall Level.ERROR
                (quoted_s +:+ " not being tracked, call .start first")
                [ArgStr event_name]] |}).
Proof. intros H. unfold stop. by rewrite H. Qed.

Lemma stop_tracked (event_name : string) (now started : timestamp)
    (st : PerfState (timestamp := timestamp)) :
  tracking_events st !! event_name = Some started →
  fst (stop elapsed event_name now st) = Some (elapsed now started)
  ∧ tracking_events (snd (stop elapsed event_name now st)) !! event_name = None.
Proof.
  intros H. unfold stop. rewrite H. simpl. split; [done|].
  apply lookup_delete_eq.
Qed.

Lemma start_tracks (event_name : string) (now : timestamp)
    (st : PerfState (timestamp := timestamp)) :
  tracking_events (start event_name now st) !! event_name = Some now.
Proof.
  unfold start. destruct (tracking_events st !! event_name); simpl;
    apply lookup_insert_eq.
Qed.

End TimerFacts.

Lemma stop_untracked_witness :
  (∅ : gmap string Z) !! "never-started" = None
  ∧ stop Z.sub "never-started" 17%Z (mkPerfState ∅ [])
    = (None,
       mkPerfState ∅
         [mkLogCall Level.ERROR
            (quoted_s +:+ " not being tracked, call .start first")
            [ArgStr "never-started"]]).
Proof.
  assert (H : (∅ : gmap string Z) !! "never-started" = None) by reflexivity.
  split; [exact H|].
  exact (stop_untracked Z.sub "never-started" 17%Z (mkPerfState ∅ []) H).
Defined.

End PerfFacts.

(** ** Artifact-forwarding adapter *)

Module AdapterFacts.
Import Relpath Adapter.

Section MethodFacts.

Variable get_rel_path : string → string.
Variable safe_string : string → string.
Variable import_art_client : result unit.
Variable import_SLAVEID : result string.
Variable fire_hook : string → ArtRecord → string → result unit.

#[local] Abbreviation call := (call get_rel_path safe_string import_art_client
                    import_SLAVEID fire_hook).
#[local] Abbreviation art_log := (art_log safe_string import_art_client
                       import_SLAVEID fire_hook).

(** Every severity method is [process], then [art_log], then the method of
    the wrapped logger. *)
Lemma call_unfold (s : severity) (frameinfo : FrameInfo) (msg : string)
    (args : list string) (kwargs : Kwargs) :
  call s frameinfo msg args kwargs
  = let '(msg', kwargs') := process get_rel_path frameinfo msg (entry_kwargs s kwargs) in
    art_log (reported_level s) msg' kwargs';;
    logger_call (wrapped_method s) msg' args kwargs'.
Proof. by destruct s. Qed.

Lemma art_log_run (level_name message slaveid : string) (kwargs : Kwargs)
    (tr : list event) :
  import_art_client = Ok () → import_SLAVEID = Ok slaveid →
  let art := mkArtRecord level_name (safe_string message) (kw_extra kwargs) in
  art_log level_name message kwargs tr
  = (fire_hook "log_message" art slaveid,
     (tr ++ [FireHook "log_message" art slaveid])%list).
Proof.
  intros Hc Hs art. unfold Adapter.art_log, mbind, T_bind, lift, emit.
  by rewrite Hc, Hs.
Qed.

(** C1, as the code has it: a severity method hands the normalized record to
    the collector first; when the collector returns, the method goes on to
    the corresponding method of the wrapped logger; when the collector
    raises, the exception leaves the method and the wrapped logger is not
    called. *)
Theorem call_forwards_then_delegates (s : severity) (frameinfo : FrameInfo)
    (msg slaveid : string) (args : list string) (kwargs : Kwargs)
    (tr : list event) :
  import_art_client = Ok () → import_SLAVEID = Ok slaveid →
  let msg' := fst (process get_rel_path frameinfo msg (entry_kwargs s kwargs)) in
  let kwargs' := snd (process get_rel_path frameinfo msg (entry_kwargs s kwargs)) in
  let art := mkArtRecord (reported_level s) (safe_string msg') (kw_extra kwargs') in
  (fire_hook "log_message" art slaveid = Ok () →
     call s frameinfo msg args kwargs tr
     = (Ok (), (tr ++ [FireHook "log_message" art slaveid;
                       LoggerCall (wrapped_method s) msg' args kwargs'])%list))
  ∧ (∀ e, fire_hook "log_message" art slaveid = Raise e →
       call s frameinfo msg args kwargs tr
       = (Raise e, (tr ++ [FireHook "log_message" art slaveid])%list)).
Proof.
  intros Hc Hs msg' kwargs' art.
  rewrite call_unfold.
  destruct (process get_rel_path frameinfo msg (entry_kwargs s kwargs))
    as [m k] eqn:Hp.
  simpl in msg', kwargs'. subst msg' kwargs'.
  assert (Hrun :
    (art_log (reported_level s) m k;;
     logger_call (wrapped_method s) m args k) tr
    = match fire_hook "log_message" art slaveid with
      | Ok _ => (Ok (), (tr ++ [FireHook "log_message" art slaveid;
                                LoggerCall (wrapped_method s) m args k])%list)
      | Raise e => (Raise e, (tr ++ [FireHook "log_message" art slaveid])%list)
      end).
  { unfold mbind, T_bind.
    rewrite (art_log_run _ _ slaveid _ _ Hc Hs). fold art.
    destruct (fire_hook "log_message" art slaveid); [|done].
    unfold logger_call, emit. by rewrite <- app_assoc. }
  rewrite Hrun. split; [intros -> | intros e ->]; done.
Qed.

(** The adapter's fall-back for a frame without a file name. *)
Lemma process_unknown_frame (frameinfo : FrameInfo) (msg : string) (kwargs : Kwargs) :
  frame_filename frameinfo = "" →
  has_source_file (default (mkExtra None None) (kw_extra kwargs)) = false →
  process get_rel_path frameinfo msg kwargs
  = (msg, mkKwargs (Some (mkExtra (Some "unknown") (Some (Some 0%Z))))
                   (kw_exc_info kwargs)).
Proof. intros Hf Hx. unfold process. by rewrite Hx, Hf. Qed.

(** C10: a record whose line number is [0] gets the path alone as its source
    string, as one whose line number is [None] does; and a logging call
    through the adapter from a frame without a file name, with no
    [source_file] of its own, makes a record whose source string is
    [unknown], without a line number. *)
Theorem zero_lineno_omitted (frameinfo caller : FrameInfo) (m : logger_method)
    (msg : string) (kwargs : Kwargs) :
  get_rel_path "unknown" = "unknown" →
  frame_filename frameinfo = "" →
  has_source_file (default (mkExtra None None) (kw_extra kwargs)) = false →
  (∀ r relpath,
     provenance get_rel_path r = Ok (relpath, Some 0%Z) →
     filter get_rel_path r = Ok (true, set_source relpath r))
  ∧ (let msg' := fst (process get_rel_path frameinfo msg kwargs) in
     let kwargs' := snd (process get_rel_path frameinfo msg kwargs) in
     kw_extra kwargs' = Some (mkExtra (Some "unknown") (Some (Some 0%Z)))
     ∧ filter get_rel_path (makeRecord caller m msg' kwargs')
       = Ok (true, set_source "unknown" (makeRecord caller m msg' kwargs'))).
Proof.
  intros Hu Hf Hx. split.
  - intros r relpath. apply RelpathFacts.filter_zero_lineno.
  - rewrite (process_unknown_frame _ _ _ Hf Hx). simpl.
    split; [done|].
    apply RelpathFacts.filter_zero_lineno.
    unfold provenance. simpl. by rewrite Hu.
Qed.

End MethodFacts.

Lemma call_forwards_then_delegates_witness :
  let art := mkArtRecord "warning" "disk full"
               (Some (mkExtra (Some "cfme/base.py") (Some (Some 12%Z)))) in
  let kwargs' := mkKwargs (Some (mkExtra (Some "cfme/base.py") (Some (Some 12%Z))))
                   None in
  call (get_rel_path_under "/proj") id (Ok ()) (Ok "slave0") collector_up
    Warning (mkFrameInfo "/proj/cfme/base.py" 12) "disk full" [] (mkKwargs None None) []
  = (Ok (), [FireHook "log_message" art "slave0";
             LoggerCall m_warning "disk full" [] kwargs']).
Proof.
  exact (proj1 (call_forwards_then_delegates (get_rel_path_under "/proj") id
                  (Ok ()) (Ok "slave0") collector_up Warning
                  (mkFrameInfo "/proj/cfme/base.py" 12) "disk full" "slave0" []
                  (mkKwargs None None) [] eq_refl eq_refl) eq_refl).
Defined.

(** C1, as it is worded, fails: with a collector that raises, no severity
    method reaches the wrapped logger; the collector's exception is what the
    caller gets. *)
Lemma call_collector_down_not_logged :
  call (get_rel_path_under "/proj") id (Ok ()) (Ok "") collector_down
    Info (mkFrameInfo "/proj/cfme/base.py" 12) "hello" [] (mkKwargs None None) []
  = (Raise (CollectorError "connection refused"),
     [FireHook "log_message"
        (mkArtRecord "info" "hello"
           (Some (mkExtra (Some "cfme/base.py") (Some (Some 12%Z))))) ""])
  ∧ forallb
      (λ s, let out := call (get_rel_path_under "/proj") id (Ok ()) (Ok "")
                         collector_down s (mkFrameInfo "/proj/cfme/base.py" 12)
                         "hello" [] (mkKwargs None None) [] in
            negb (is_ok (fst out)) && negb (existsb was_logged (snd out)))
      [Trace; Debug; Info; Warning; Error; Critical; Exception; Log Level.INFO]
    = true.
Proof. split; reflexivity. Qed.

Lemma zero_lineno_omitted_witness :
  get_rel_path_under "/proj" "unknown" = "unknown"
  ∧ filter (get_rel_path_under "/proj")
      (makeRecord (mkFrameInfo "/proj/utils/log.py" 499) m_info "hello"
         (mkKwargs (Some (mkExtra (Some "unknown") (Some (Some 0%Z)))) None))
    = Ok (true,
          set_source "unknown"
            (makeRecord (mkFrameInfo "/proj/utils/log.py" 499) m_info "hello"
               (mkKwargs (Some (mkExtra (Some "unknown") (Some (Some 0%Z)))) None))).
Proof.
  split; [reflexivity|].
  exact (proj2 (proj2 (zero_lineno_omitted (get_rel_path_under "/proj")
                  (mkFrameInfo "" 0) (mkFrameInfo "/proj/utils/log.py" 499)
                  m_info "hello" (mkKwargs None None)
                  eq_refl eq_refl eq_refl))).
Defined.

End AdapterFacts.

(** ** Logger factory *)

Module FactoryFacts.
Import Conf Factory.

Lemma default_conf_reserved (k : string) :
  k ∈ reserved_keys →
  ∃ v, _default_conf !! k = Some v ∧ scalar_option v = true.
Proof.
  unfold reserved_keys. rewrite !elem_of_cons, elem_of_nil.
  intros [->|[->|[->|[->|[->|[->|[]]]]]]]; eexists; split; reflexivity.
Qed.




#[local] Arguments _load_conf : simpl never.
#[local] Arguments getitem : simpl never.
#[local] Arguments py_or : simpl never.
#[local] Arguments _get_syslog_settings : simpl never.
#[local] Arguments _checkLevel : simpl never.
#[local] Arguments truthy : simpl never.

Lemma alter_last {A : Type} (f : A → A) (h : list A) (x : A) :
  alter f (List.length h) (h ++ [x]) = h ++ [f x].
Proof. induction h as [|a h IH]; simpl; [done|]. by f_equal. Qed.

Lemma discard_spec (logger_name : string) (w : World) :
  discard logger_name w
  = (Ok (), set_loggerDict (delete logger_name (loggerDict w)) w).
Proof.
  unfold discard. destruct (loggerDict w !! logger_name) eqn:H; [done|].
  rewrite delete_id by done. by destruct w.
Qed.

Lemma getLogger_fresh (logger_name : string) (w : World) :
  logger_name ≠ "" → loggerDict w !! logger_name = None →
  getLogger logger_name w
  = (Ok (Obj (List.length (heap w))),
     set_loggerDict (<[logger_name := List.length (heap w)]> (loggerDict w))
       (set_heap (heap w ++ [mkLogger logger_name Level.NOTSET [] []]) w)).
Proof.
  intros Hne Hnone. unfold getLogger.
  destruct (String.eqb_spec logger_name ""); [done|]. by rewrite Hnone.
Qed.

Ltac close_shape :=
  split; [done|]; split; [done|]; split; [done|];
  eexists; split; [reflexivity|]; simpl;
  split; [done|]; split; [done|]; split; [|split; [|lia]];
  [ (eexists _, [_], [_] + eexists _, [_], []
     + eexists _, [], [_] + eexists _, [], []);
    split; [reflexivity|];
    solve [ split; [done|]; split; [done|];
            split; try done; eexists; repeat split; try done; simpl; lia ]
  | eexists _, _, _;
    split; [reflexivity|]; split; [eassumption|]; split; [eassumption|];
    reflexivity ].

Lemma kind_exclusive (h : Handler) :
  (is_file h = true → is_syslog h = false ∧ is_stream h = false)
  ∧ (is_syslog h = true → is_file h = false ∧ is_stream h = false)
  ∧ (is_stream h = true → is_file h = false ∧ is_syslog h = false).
Proof. unfold is_file, is_syslog, is_stream. by destruct (kind h). Qed.





Lemma py_or_zero (y : result value) : py_or (Some 0%Z) y = y.
Proof. reflexivity. Qed.

Lemma py_or_none (y : result value) : py_or None y = y.
Proof. reflexivity. Qed.

Lemma py_or_nonzero (n : Z) (y : result value) :
  n ≠ 0%Z → py_or (Some n) y = Ok (VInt n).
Proof. intros H. unfold py_or. by destruct (Z.eqb_spec n 0). Qed.

Lemma getitem_lookup (d : gmap string value) (key : string) (v : value) :
  getitem d key = Ok v → d !! key = Some v.
Proof. unfold getitem. destruct (d !! key); [by intros [= ->]|done]. Qed.

Section FactoryRuns.

Variable int_of_str : string → option Z.
Variable log_path : string.

#[local] Abbreviation create_logger := (create_logger int_of_str log_path).

(** One successful call for a name other than the empty one: the logger
    returned is a new object at the end of the heap, the registry holds it
    under the name, and its handlers are the ones just made. *)
Lemma create_logger_fresh (logger_name : string) (filename : option string)
    (max_file_size max_backups : option Z) (env : gmap string value)
    (lid : string) (w w' : World) (r : logger_ref) :
  logger_name ≠ "" →
  create_logger logger_name filename max_file_size max_backups env lid w
  = (Ok r, w') →
  r = Obj (List.length (heap w))
  ∧ loggerDict w'
    = <[logger_name := List.length (heap w)]> (delete logger_name (loggerDict w))
  ∧ root w' = root w
  ∧ ∃ l, heap w' = heap w ++ [l]
      ∧ name l = logger_name
      ∧ filters l = [RelpathFilter]
      ∧ handlers_shape int_of_str env logger_name (next_handler w) (handlers l)
      ∧ (∃ conf maxBytes backupCount,
           _load_conf env logger_name = Ok conf
           ∧ py_or max_file_size (getitem conf "max_file_size") = Ok maxBytes
           ∧ py_or max_backups (getitem conf "max_file_backups") = Ok backupCount
           ∧ file_limits l = [(maxBytes, backupCount)])
      ∧ next_handler w' = next_handler w + List.length (handlers l).
Proof.
  intros Hne H. destruct w as [d h rt nh ld].
  unfold Factory.create_logger, mbind, M_bind, lift in H.
  rewrite discard_spec in H. simpl in H.
  destruct (_load_conf env logger_name) as [conf|] eqn:Hconf; [|discriminate].
  destruct (getitem conf "file_format") as [ff|] eqn:Hff; [|discriminate].
  destruct (py_or max_file_size _) as [maxBytes|] eqn:Hmax; [|discriminate].
  destruct (py_or max_backups _) as [backupCount|] eqn:Hbc; [|discriminate].
  rewrite getLogger_fresh in H by (done || apply lookup_delete_eq).
  simpl in H. rewrite alter_last in H. unfold has_handler in H. simpl in H.
  destruct (_get_syslog_settings int_of_str env) as [settings|] eqn:Hsys;
    [|discriminate].
  unfold handlers_shape, wants_syslog, wants_console.
  rewrite Hsys, Hconf.
  destruct settings as [[address port]|]; simpl in H.
  - rewrite alter_last in H. unfold has_handler in H. simpl in H.
    rewrite (proj2 (Nat.eqb_neq nh (S nh))) in H by lia. simpl in H.
    destruct (getitem conf "level") as [lv|] eqn:Hlv; [|discriminate].
    unfold setLevel, mbind, M_bind, lift in H.
    destruct (_checkLevel lv) as [n|] eqn:Hn; [|discriminate].
    simpl in H. rewrite alter_last in H. simpl in H.
    destruct (getitem conf "errors_to_console") as [e2c|] eqn:He2c;
      [|discriminate].
    destruct (truthy e2c) eqn:Htruthy.
    + destruct (getitem conf "stream_format") as [sf|] eqn:Hsf; [|discriminate].
      simpl in H. rewrite alter_last in H. unfold has_handler in H. simpl in H.
      rewrite (proj2 (Nat.eqb_neq nh (S (S nh)))) in H by lia.
      rewrite (proj2 (Nat.eqb_neq nh (S nh))) in H by lia.
      simpl in H. rewrite alter_last in H. simpl in H.
      injection H as <- <-. simpl. close_shape.
    + simpl in H. rewrite alter_last in H. simpl in H.
      injection H as <- <-. simpl. close_shape.
  - destruct (getitem conf "level") as [lv|] eqn:Hlv; [|discriminate].
    unfold setLevel, mbind, M_bind, lift in H.
    destruct (_checkLevel lv) as [n|] eqn:Hn; [|discriminate].
    simpl in H. rewrite alter_last in H. simpl in H.
    destruct (getitem conf "errors_to_console") as [e2c|] eqn:He2c;
      [|discriminate].
    destruct (truthy e2c) eqn:Htruthy.
    + destruct (getitem conf "stream_format") as [sf|] eqn:Hsf; [|discriminate].
      simpl in H. rewrite alter_last in H. unfold has_handler in H. simpl in H.
      rewrite (proj2 (Nat.eqb_neq nh (S nh))) in H by lia.
      simpl in H. rewrite alter_last in H. simpl in H.
      injection H as <- <-. simpl. close_shape.
    + simpl in H. rewrite alter_last in H. simpl in H.
      injection H as <- <-. simpl. close_shape.
Qed.


(** The limits of the file handler are the arguments when they are true
    values and the configured limits otherwise. *)
Lemma create_logger_file_limits (logger_name : string) (filename : option string)
    (max_file_size max_backups : option Z) (env : gmap string value)
    (lid : string) (w w' : World) (r : logger_ref) :
  logger_name ≠ "" →
  create_logger logger_name filename max_file_size max_backups env lid w
  = (Ok r, w') →
  ∃ l conf maxBytes backupCount,
    deref w' r = Some l
    ∧ _load_conf env logger_name = Ok conf
    ∧ py_or max_file_size (getitem conf "max_file_size") = Ok maxBytes
    ∧ py_or max_backups (getitem conf "max_file_backups") = Ok backupCount
    ∧ file_limits l = [(maxBytes, backupCount)].
Proof.
  intros Hne Hrun.
  destruct (create_logger_fresh _ _ _ _ _ _ _ _ _ Hne Hrun)
    as (-> & _ & _ & l & Hheap & _ & _ & _ & (conf & mb & bc & H1 & H2 & H3 & H4) & _).
  exists l, conf, mb, bc. simpl. rewrite Hheap.
  split; [by apply list_lookup_middle|]. done.
Qed.

(** C5, at an explicit zero: a call that passes [max_file_size=0] and
    [max_backups=0] builds its file handler with the limits of the merged
    configuration, whatever they are, and not with the zeros passed. *)
Theorem create_logger_explicit_zero_ignored (logger_name : string)
    (filename : option string) (env : gmap string value) (lid : string)
    (w w' : World) (r : logger_ref) :
  logger_name ≠ "" →
  create_logger logger_name filename (Some 0%Z) (Some 0%Z) env lid w
  = (Ok r, w') →
  ∃ l conf size backups,
    deref w' r = Some l
    ∧ _load_conf env logger_name = Ok conf
    ∧ conf !! "max_file_size" = Some size
    ∧ conf !! "max_file_backups" = Some backups
    ∧ file_limits l = [(size, backups)].
Proof.
  intros Hne Hrun.
  destruct (create_logger_file_limits _ _ _ _ _ _ _ _ _ Hne Hrun)
    as (l & conf & size & backups & Hl & Hconf & Hsize & Hbackups & Hlimits).
  rewrite py_or_zero in Hsize. rewrite py_or_zero in Hbackups.
  exists l, conf, size, backups.
  split; [exact Hl|]. split; [exact Hconf|].
  split; [by apply getitem_lookup|]. split; [by apply getitem_lookup|].
  exact Hlimits.
Qed.


End FactoryRuns.


Example create_logger_twice_handlers :
  let run1 := Factory.create_logger (λ _, None) "/logs" "cfme" None None None
                env_all_sinks "a1b2c3d4" empty_world in
  let run2 := Factory.create_logger (λ _, None) "/logs" "cfme" None None None
                env_all_sinks "e5f6g7h8" (snd run1) in
  (map handler_id ∘ handlers <$> deref (snd run2) (Obj 0)) = Some [0; 1; 2]
  ∧ (map handler_id ∘ handlers <$> deref (snd run2) (Obj 1)) = Some [3; 4; 5]
  ∧ loggerDict (snd run2) !! "cfme" = Some 1.
Proof. vm_compute. done. Qed.

(** The empty name is the root logger, which no call discards. *)
Example create_logger_root_accumulates :
  let run1 := Factory.create_logger (λ _, None) "/logs" "" None None None
                ∅ "a1b2c3d4" empty_world in
  let run2 := Factory.create_logger (λ _, None) "/logs" "" None None None
                ∅ "e5f6g7h8" (snd run1) in
  fst run2 = Ok Root ∧ count_handlers is_file (root (snd run2)) = 2.
Proof. vm_compute. done. Qed.

(** A threshold of zero: the file is never rolled over. *)
Lemma shouldRollover_zero (file_size msg_len : Z) :
  shouldRollover (VInt 0) file_size msg_len = false.
Proof. reflexivity. Qed.

Lemma create_logger_explicit_zero_ignored_witness :
  let run := Factory.create_logger (λ _, None) "/logs" "cfme" None
               (Some 0%Z) (Some 0%Z) env_rotating "a1b2c3d4" empty_world in
  "cfme" ≠ ""
  ∧ run = (Ok (Obj 0), snd run)
  ∧ file_limits <$> deref (snd run) (Obj 0) = Some [(VInt 1000, VInt 3)]
  ∧ shouldRollover (VInt 1000) 990 20 = true
  ∧ shouldRollover (VInt 0) 990 20 = false.
Proof.
  intros run.
  assert (H0 : "cfme" ≠ "") by discriminate.
  assert (H1 : run = (Ok (Obj 0), snd run)) by (vm_compute; reflexivity).
  split; [exact H0|]. split; [exact H1|].
  destruct (create_logger_explicit_zero_ignored (λ _, None) "/logs" "cfme" None
              env_rotating "a1b2c3d4" empty_world (snd run) (Obj 0) H0 H1)
    as (l & conf & size & backups & Hl & Hconf & Hsize & Hbackups & Hlimits).
  rewrite Hl. simpl. rewrite Hlimits.
  assert (Hc : _load_conf env_rotating "cfme"
               = Ok (<["max_file_size" := VInt 1000]>
                     (<["max_file_backups" := VInt 3]> ∅) ∪ _default_conf))
    by reflexivity.
  rewrite Hc in Hconf. injection Hconf as <-.
  vm_compute in Hsize. vm_compute in Hbackups.
  injection Hsize as <-. injection Hbackups as <-.
  repeat split; reflexivity.
Defined.

(** An environment without a logging section keeps every option as the
    defaults have it. *)
Lemma keeps_scalar_no_logging (env : gmap string value) (key : string) :
  env !! "logging" = None → keeps_scalar env key.
Proof. intros Hnone d v Hd. by rewrite Hnone in Hd. Qed.



Example create_logger_level_raises :
  fst (Factory.create_logger (λ _, None) "/logs" "level" None None None ∅
         "a1b2c3d4" empty_world) = Raise ValueError.
Proof. reflexivity. Qed.

Example create_logger_max_file_size_raises :
  fst (Factory.create_logger (λ _, None) "/logs" "max_file_size" None None None ∅
         "a1b2c3d4" empty_world) = Raise TypeError.
Proof. reflexivity. Qed.

(** Where the hypothesis on the environment matters: [dict.update] takes an
    empty string for an empty sequence of pairs. *)
Example create_logger_empty_format_accepted :
  fst (Factory.create_logger (λ _, None) "/logs" "file_format" None None None
         (<["logging" := VDict (<["file_format" := VStr ""]> ∅)]> ∅)
         "a1b2c3d4" empty_world) = Ok (Obj 0).
Proof. reflexivity. Qed.

End FactoryFacts.

(** ** Performance timer: starting, stopping and other events *)

Module PerfExtra.
Import Perf.

Section TimerLaws.

Context {timestamp : Type}.
Variable elapsed : timestamp → timestamp → timestamp.

(** X1: an event that is started and then stopped yields the time elapsed
    between the two readings of the clock, whatever was tracked under that
    name before; afterwards the event is not tracked, and stopping it once
    more returns [None]. *)
Theorem start_stop_round_trip (event_name : string) (t0 t1 t2 : timestamp)
    (st : PerfState (timestamp := timestamp)) :
  let st1 := start event_name t0 st in
  let st2 := snd (stop elapsed event_name t1 st1) in
  fst (stop elapsed event_name t1 st1) = Some (elapsed t1 t0)
  ∧ tracking_events st2 = delete event_name (tracking_events st)
  ∧ fst (stop elapsed event_name t2 st2) = None.
Proof.
  intros st1 st2.
  assert (Hst1 : tracking_events st1 !! event_name = Some t0).
  { unfold st1, start.
    destruct (tracking_events st !! event_name); simpl; apply lookup_insert_eq. }
  assert (Htr : tracking_events st2 = delete event_name (tracking_events st)).
  { unfold st2, stop. rewrite Hst1. simpl.
    unfold st1, start.
    destruct (tracking_events st !! event_name); simpl; apply delete_insert_eq. }
  split; [|split; [exact Htr|]].
  - unfold stop. by rewrite Hst1.
  - unfold stop. rewrite Htr, lookup_delete_eq. reflexivity.
Qed.

(** X2: starting an event that is already tracked does not raise: it logs a
    warning (and nothing else), and the next stop measures from the second
    start, not from the first. *)
Theorem restart_resets_start_time (event_name : string) (t0 t1 t2 : timestamp)
    (st : PerfState (timestamp := timestamp)) :
  let st1 := start event_name t0 st in
  let st2 := start event_name t1 st1 in
  perf_calls st2
  = perf_calls st1
    ++ [mkLogCall Level.WARNING
          (quoted_s +:+ " event already started, resetting start time")
          [ArgStr event_name]]
  ∧ fst (stop elapsed event_name t2 st2) = Some (elapsed t2 t1).
Proof.
  intros st1 st2.
  assert (Hst1 : tracking_events st1 !! event_name = Some t0).
  { unfold st1, start.
    destruct (tracking_events st !! event_name); simpl; apply lookup_insert_eq. }
  split.
  - unfold st2, start. rewrite Hst1. reflexivity.
  - unfold stop, st2, start. rewrite Hst1. simpl.
    by rewrite lookup_insert_eq.
Qed.

(** X3: starting or stopping one event leaves every other tracked event
    with the start time it had. *)
Theorem other_events_untouched (event_name other : string) (now : timestamp)
    (st : PerfState (timestamp := timestamp)) :
  other ≠ event_name →
  tracking_events (start event_name now st) !! other = tracking_events st !! other
  ∧ tracking_events (snd (stop elapsed event_name now st)) !! other
    = tracking_events st !! other.
Proof.
  intros Hne. split.
  - unfold start.
    destruct (tracking_events st !! event_name); simpl;
      by apply lookup_insert_ne.
  - unfold stop.
    destruct (tracking_events st !! event_name); simpl; [|done].
    by apply lookup_delete_ne.
Qed.

(** Every [start] and every [stop] makes exactly one call of the logger,
    after the calls already made. *)
Lemma one_logger_call_each (event_name : string) (now : timestamp)
    (st : PerfState (timestamp := timestamp)) :
  (∃ c, perf_calls (start event_name now st) = perf_calls st ++ [c])
  ∧ (∃ c, perf_calls (snd (stop elapsed event_name now st)) = perf_calls st ++ [c]).
Proof.
  split.
  - unfold start. destruct (tracking_events st !! event_name); simpl; eauto.
  - unfold stop. destruct (tracking_events st !! event_name); simpl; eauto.
Qed.

End TimerLaws.

Lemma other_events_untouched_witness :
  "login" ≠ "provision"
  ∧ tracking_events (start "provision" 5%Z (mkPerfState {["login" := 1%Z]} [])) !! "login"
    = Some 1%Z.
Proof.
  assert (H : "login" ≠ "provision") by discriminate.
  split; [exact H|].
  exact (proj1 (other_events_untouched Z.sub "provision" "login" 5%Z
                  (mkPerfState {["login" := 1%Z]} []) H)).
Defined.

End PerfExtra.

(** ** Marker formatter: what comes out for any message and mark *)

Module MarkerExtra.
Import Marker.

Lemma str_app_assoc (s t u : string) : (s +:+ t) +:+ u = s +:+ (t +:+ u).
Proof.
  induction s as [|a s IH]; [reflexivity|].
  rewrite !str_app_cons. by f_equal.
Qed.

(** X4: whenever [format_marker] returns, the message is inside the result
    as it was given (nothing is cut off), and the result is 80 characters
    long when the message has at most 78 characters and as long as the
    message otherwise. *)
Theorem format_marker_keeps_message (s mark out : string) :
  format_marker s mark = Ok out →
  (∃ before after, out = before +:+ s +:+ after)
  ∧ String.length out
    = (if Nat.leb (String.length s) (MARKER_LEN - 2)
       then MARKER_LEN else String.length s).
Proof.
  unfold format_marker.
  destruct (Nat.leb_spec (String.length s) (MARKER_LEN - 2)) as [Hle|Hgt].
  - destruct (spec_fill mark) as [fill|e]; simpl; [|done].
    intros [= <-]. unfold str_center.
    rewrite MarkerFacts.padded_length. split.
    + exists (str_repeat fill ((MARKER_LEN - (String.length s + 2)) / 2) +:+ " ").
      eexists (" " +:+ _).
      by rewrite !str_app_assoc.
    + rewrite !str_app_length, !str_repeat_length. simpl String.length.
      pose proof (Nat.div_mod_eq (MARKER_LEN - (String.length s + 2)) 2).
      pose proof (Nat.mod_upper_bound (MARKER_LEN - (String.length s + 2)) 2).
      unfold MARKER_LEN in *. lia.
  - intros [= <-]. split; [|done].
    exists "", "". simpl. by rewrite MarkerFacts.str_app_empty_r.
Qed.

Lemma format_marker_keeps_message_witness :
  format_marker "odd" "=" = Ok (str_repeat "=" 37 +:+ " odd " +:+ str_repeat "=" 38)
  ∧ String.length (str_repeat "=" 37 +:+ " odd " +:+ str_repeat "=" 38) = MARKER_LEN.
Proof.
  assert (H : format_marker "odd" "="
              = Ok (str_repeat "=" 37 +:+ " odd " +:+ str_repeat "=" 38))
    by reflexivity.
  split; [exact H|].
  exact (proj2 (format_marker_keeps_message "odd" "=" _ H)).
Defined.

(** X5: [format_marker] raises exactly when the message has at most 78
    characters and the mark is neither empty nor one character other than a
    brace; a longer message comes back whatever the mark is. *)
Theorem format_marker_raises_iff (s mark : string) :
  is_ok (format_marker s mark)
  = (negb (Nat.leb (String.length s) (MARKER_LEN - 2)) || is_ok (spec_fill mark))%bool.
Proof.
  unfold format_marker.
  destruct (Nat.leb (String.length s) (MARKER_LEN - 2)); simpl; [|done].
  by destruct (spec_fill mark).
Qed.

Example format_marker_two_marks : format_marker "hi" "=-" = Raise ValueError.
Proof. reflexivity. Qed.

Example format_marker_long_bad_mark :
  format_marker (str_repeat "x" 79) "=-" = Ok (str_repeat "x" 79).
Proof. reflexivity. Qed.

Example format_marker_empty_mark :
  format_marker "hi" "" = Ok (str_repeat " " 39 +:+ "hi" +:+ str_repeat " " 39).
Proof. reflexivity. Qed.

End MarkerExtra.

(** ** Source-attribution filter: running it again *)

Module RelpathExtra.
Import Relpath.

Section FilterLaws.

Variable get_rel_path : string → string.

(** X6: the filter reads nothing it writes: a record that went through it
    comes out of a second pass unchanged, and all it ever changes is the
    [source] attribute. *)
Theorem filter_idempotent (r r' : LogRecord) (verdict : bool) :
  filter get_rel_path r = Ok (verdict, r') →
  verdict = true
  ∧ filter get_rel_path r' = Ok (true, r')
  ∧ levelno r' = levelno r ∧ msg r' = msg r
  ∧ pathname r' = pathname r ∧ lineno r' = lineno r
  ∧ source_file r' = source_file r ∧ source_lineno r' = source_lineno r.
Proof.
  intros Hrun.
  destruct (RelpathFacts.provenance_total get_rel_path r) as (relpath & l & Hp).
  rewrite (RelpathFacts.filter_of_provenance _ _ _ _ Hp) in Hrun.
  injection Hrun as <- <-.
  split; [done|]. split; [|by repeat split].
  rewrite (RelpathFacts.filter_of_provenance _ (set_source _ r) relpath l); [done|].
  exact Hp.
Qed.

End FilterLaws.

Lemma filter_idempotent_witness :
  filter (get_rel_path_under "/proj")
    (set_source "cfme/base.py:12" record_plain)
  = Ok (true, set_source "cfme/base.py:12" record_plain).
Proof.
  exact (proj1 (proj2 (filter_idempotent (get_rel_path_under "/proj")
                         record_plain _ true eq_refl))).
Defined.

End RelpathExtra.

(** ** Configuration: the layers and the syslog settings *)

Module ConfExtra.
Import Conf.

(** X7: with a logging section that is a mapping, and under the logger's
    name either nothing or a mapping, [_load_conf] does not raise, and every
    key is looked up in the per-logger block first, in the logging section
    next, and in the built-in defaults last. *)
Theorem load_conf_precedence (env d : gmap string value) (logger_name : string)
    (block : option (gmap string value)) (key : string) :
  env !! "logging" = Some (VDict d) →
  (d ∪ _default_conf) !! logger_name = VDict <$> block →
  ∃ conf,
    _load_conf env logger_name = Ok conf
    ∧ conf !! key
      = match block ≫= (.!! key) with
        | Some v => Some v
        | None =>
            match d !! key with
            | Some v => Some v
            | None => _default_conf !! key
            end
        end.
Proof.
  intros Henv Hblock. unfold _load_conf. rewrite Henv. simpl.
  rewrite Hblock. destruct block as [sub|]; simpl.
  - eexists. split; [reflexivity|].
    rewrite !lookup_union.
    destruct (sub !! key), (d !! key), (_default_conf !! key); reflexivity.
  - eexists. split; [reflexivity|].
    rewrite lookup_union.
    destruct (d !! key), (_default_conf !! key); reflexivity.
Qed.

Lemma load_conf_precedence_witness :
  let d : gmap string value :=
    <["level" := VStr "WARNING"]>
    (<["perf" := VDict (<["level" := VStr "DEBUG"]> ∅)]> ∅) in
  let env : gmap string value := <["logging" := VDict d]> ∅ in
  ∃ conf,
    _load_conf env "perf" = Ok conf
    ∧ conf !! "level" = Some (VStr "DEBUG").
Proof.
  intros d env.
  exact (load_conf_precedence env d "perf"
           (Some (<["level" := VStr "DEBUG"]> ∅)) "level" eq_refl eq_refl).
Defined.

Lemma dict_update_keeps_keys (d conf : gmap string value) (other : value)
    (key : string) :
  dict_update d other = Ok conf → is_Some (d !! key) → is_Some (conf !! key).
Proof.
  destruct other as [|b|n|s|d']; simpl; try done.
  - destruct s; [|done]. by intros [= <-].
  - intros [= <-] [v Hv]. rewrite lookup_union.
    rewrite Hv. destruct (d' !! key); simpl; eauto.
Qed.

Lemma load_conf_has_key (env conf : gmap string value) (logger_name key : string) :
  _load_conf env logger_name = Ok conf →
  key ∈ reserved_keys →
  ∃ v, getitem conf key = Ok v.
Proof.
  intros Hload Hkey.
  assert (Hdef : is_Some (_default_conf !! key)).
  { destruct (FactoryFacts.default_conf_reserved key Hkey) as (v & Hv & _). eauto. }
  unfold _load_conf in Hload.
  destruct (dict_update _default_conf (default (VDict ∅) (env !! "logging")))
    as [conf1|] eqn:H1; simpl in Hload; [|done].
  pose proof (dict_update_keeps_keys _ _ _ key H1 Hdef) as Hc1.
  assert (Hc : is_Some (conf !! key)).
  { destruct (conf1 !! logger_name) as [per_logger|].
    - by eapply dict_update_keeps_keys.
    - by injection Hload as <-. }
  destruct Hc as [v Hv]. exists v. unfold getitem. by rewrite Hv.
Qed.

(** X8: whenever [_load_conf] returns, each of the six built-in options has
    a value in the result, so that none of the look-ups [conf['level']],
    [conf['file_format']] and so on can raise a [KeyError]. *)
Theorem load_conf_complete (env conf : gmap string value) (logger_name key : string) :
  _load_conf env logger_name = Ok conf →
  key ∈ reserved_keys →
  ∃ v, getitem conf key = Ok v.
Proof. apply load_conf_has_key. Qed.

Lemma load_conf_complete_witness :
  ∃ v, getitem (_default_conf : gmap string value) "stream_format" = Ok v.
Proof.
  assert (H1 : _load_conf ∅ "cfme" = Ok _default_conf) by reflexivity.
  assert (H2 : "stream_format" ∈ reserved_keys)
    by (unfold reserved_keys; set_solver).
  exact (load_conf_complete ∅ _default_conf "cfme" "stream_format" H1 H2).
Defined.

Section SyslogSettings.

Variable int_of_str : string → option Z.

(** X9: [_get_syslog_settings] returns [None] exactly when the [syslog]
    key is missing from the environment or the syslog mapping lacks
    [address] or [port] (the [KeyError]s it catches), and it returns an
    address and a port exactly when both are there and the port converts to
    an integer; in every other case (a syslog entry that is no mapping, a
    port that is no number) it raises. *)
Theorem syslog_settings_cases (env : gmap string value) :
  (_get_syslog_settings int_of_str env = Ok None
   ↔ env !! "syslog" = None
     ∨ ∃ sl, env !! "syslog" = Some (VDict sl)
             ∧ (sl !! "address" = None ∨ sl !! "port" = None))
  ∧ (∀ address port,
       _get_syslog_settings int_of_str env = Ok (Some (address, port))
       ↔ ∃ sl p, env !! "syslog" = Some (VDict sl)
                 ∧ sl !! "address" = Some address
                 ∧ sl !! "port" = Some p
                 ∧ py_int int_of_str p = Ok port).
Proof.
  unfold _get_syslog_settings, getitem.
  destruct (env !! "syslog") as [v|]; simpl.
  - destruct v as [|b|n|s|sl]; simpl;
      try (split; [split; [done|intros [?|(? & ? & ?)]; done]
                  |intros address port; split; [done|intros (? & ? & ? & ?); done]]).
    unfold getitem.
    destruct (sl !! "address") as [a|] eqn:Ha; simpl.
    + destruct (sl !! "port") as [p|] eqn:Hp; simpl.
      * destruct (py_int int_of_str p) as [n|e] eqn:Hn; simpl.
        -- split.
           ++ split; [done|].
              intros [?|(sl' & [= <-] & [H|H])]; congruence.
           ++ intros address port. split.
              ** intros [= <- <-]. eauto 10.
              ** intros (sl' & p' & [= <-] & Ha' & Hp' & Hn').
                 congruence.
        -- assert (He : e ≠ KeyError).
           { destruct p; simpl in Hn; try congruence.
             destruct (int_of_str s); congruence. }
           split.
           ++ split.
              ** destruct e; done.
              ** intros [?|(sl' & [= <-] & [H|H])]; congruence.
           ++ intros address port. split.
              ** destruct e; done.
              ** intros (sl' & p' & [= <-] & Ha' & Hp' & Hn'). congruence.
      * split.
        -- split; [|done]. intros _. right. eauto.
        -- intros address port. split; [done|].
           intros (sl' & p' & [= <-] & _ & Hp' & _). congruence.
    + split.
      * split; [|done]. intros _. right. eauto.
      * intros address port. split; [done|].
        intros (sl' & p' & [= <-] & Ha' & _). congruence.
  - split.
    + split; [|done]. intros _. by left.
    + intros address port. split; [done|]. intros (? & ? & ? & ?). done.
Qed.

End SyslogSettings.

Example syslog_settings_text_port :
  _get_syslog_settings (λ _, None)
    (<["syslog" := VDict (<["address" := VStr "h"]> (<["port" := VStr "udp"]> ∅))]> ∅)
  = Raise ValueError.
Proof. reflexivity. Qed.

Example syslog_settings_not_a_mapping :
  _get_syslog_settings (λ _, None) (<["syslog" := VStr "h:514"]> ∅)
  = Raise TypeError.
Proof. reflexivity. Qed.

End ConfExtra.

(** ** Logger factory: what a call builds, and what it leaves alone *)

Module FactoryExtra.
Import Conf Factory Sublogger.

#[local] Arguments _load_conf : simpl never.
#[local] Arguments getitem : simpl never.
#[local] Arguments py_or : simpl never.
#[local] Arguments _get_syslog_settings : simpl never.
#[local] Arguments _checkLevel : simpl never.
#[local] Arguments truthy : simpl never.

Lemma py_or_getitem_ok (x : option Z) (conf : gmap string value) (key : string)
    (v : value) :
  getitem conf key = Ok v → ∃ v', py_or x (getitem conf key) = Ok v'.
Proof.
  intros ->. unfold py_or. destruct x as [n|]; [|eauto].
  destruct (n =? 0)%Z; eauto.
Qed.

Section Runs.

Variable int_of_str : string → option Z.
Variable log_path : string.

#[local] Abbreviation create_logger := (create_logger int_of_str log_path).
#[local] Abbreviation create_sublogger := (create_sublogger int_of_str log_path).

(** X10: a call for a name other than the empty one leaves the rest of the
    process alone: every other name of the registry keeps its logger, every
    logger object that was there is as it was (the one registered under the
    name before included), and the root logger is untouched. *)
Theorem create_logger_frame (logger_name : string) (filename : option string)
    (max_file_size max_backups : option Z) (env : gmap string value)
    (lid : string) (w w' : World) (r : logger_ref) :
  logger_name ≠ "" →
  create_logger logger_name filename max_file_size max_backups env lid w
  = (Ok r, w') →
  (∀ other, other ≠ logger_name → loggerDict w' !! other = loggerDict w !! other)
  ∧ (∀ i l, heap w !! i = Some l → heap w' !! i = Some l)
  ∧ root w' = root w
  ∧ next_handler w ≤ next_handler w'.
Proof.
  intros Hne Hrun.
  destruct (FactoryFacts.create_logger_fresh _ _ _ _ _ _ _ _ _ _ _ Hne Hrun)
    as (_ & Hreg & Hroot & l & Hheap & _ & _ & _ & _ & Hnext).
  split; [|split; [|split; [exact Hroot|lia]]].
  - intros other Hother.
    rewrite Hreg, lookup_insert_ne, lookup_delete_ne; done.
  - intros i l0 Hi. rewrite Hheap. apply lookup_app_l_Some. exact Hi.
Qed.

(** X11: the console handler gets the records of level [ERROR] and above
    and no others: among the handlers of the returned logger that take a
    record of a given level there is one console handler when the
    configuration switches [errors_to_console] on and the level is at least
    [ERROR], and none otherwise. *)
Theorem console_mirrors_errors_only (logger_name : string)
    (filename : option string) (max_file_size max_backups : option Z)
    (env : gmap string value) (lid : string) (w w' : World) (r : logger_ref)
    (l : Logger) (record_level : Z) :
  logger_name ≠ "" →
  create_logger logger_name filename max_file_size max_backups env lid w
  = (Ok r, w') →
  deref w' r = Some l →
  List.length (List.filter is_stream (callHandlers l record_level))
  = (if (wants_console env logger_name && (Level.ERROR <=? record_level)%Z)%bool
     then 1 else 0).
Proof.
  intros Hne Hrun Hl.
  destruct (FactoryFacts.create_logger_fresh _ _ _ _ _ _ _ _ _ _ _ Hne Hrun)
    as (-> & _ & _ & l' & Hheap & _ & _ & Hshape & _ & _).
  simpl in Hl. rewrite Hheap, list_lookup_middle in Hl by done.
  injection Hl as ->.
  destruct Hshape as (fh & sys & con & Hhs & Hfile & _ & Hsys & Hcon).
  unfold callHandlers. rewrite Hhs.
  destruct (FactoryFacts.kind_exclusive fh) as (Hf & _ & _).
  destruct (Hf Hfile) as [_ Hf2].
  assert (Hsysn : List.filter is_stream
                    (List.filter (λ h, (handler_level h <=? record_level)%Z) sys) = []).
  { destruct (wants_syslog int_of_str env).
    - destruct Hsys as (sh & -> & Hsh & _).
      destruct (FactoryFacts.kind_exclusive sh) as (_ & Hs & _).
      destruct (Hs Hsh) as [_ Hs2]. simpl.
      destruct (handler_level sh <=? record_level)%Z; simpl; [|done].
      by rewrite Hs2.
    - by subst sys. }
  simpl. rewrite List.filter_app.
  assert (Hhead : ∀ rest,
            List.filter is_stream
              (if (handler_level fh <=? record_level)%Z then fh :: rest else rest)
            = List.filter is_stream rest).
  { intros rest. destruct (handler_level fh <=? record_level)%Z; simpl; [|done].
    by rewrite Hf2. }
  rewrite Hhead, List.filter_app, Hsysn. simpl.
  destruct (wants_console env logger_name); simpl.
  - destruct Hcon as (ch & -> & Hch & Hlvl & _). simpl. rewrite Hlvl.
    destruct (Level.ERROR <=? record_level)%Z; simpl; [|done].
    by rewrite Hch.
  - by subst con.
Qed.

(** X12: a call that fails while it loads the configuration has by then
    taken the logger of that name out of the registry and puts nothing in
    its place; no handler is made and no logger object is changed. *)
Theorem create_logger_failed_load_unregisters (logger_name : string)
    (filename : option string) (max_file_size max_backups : option Z)
    (env : gmap string value) (lid : string) (w : World) (e : exn) :
  _load_conf env logger_name = Raise e →
  ∃ w',
    create_logger logger_name filename max_file_size max_backups env lid w
    = (Raise e, w')
    ∧ loggerDict w' !! logger_name = None
    ∧ (∀ other, other ≠ logger_name →
         loggerDict w' !! other = loggerDict w !! other)
    ∧ heap w' = heap w ∧ root w' = root w ∧ next_handler w' = next_handler w.
Proof.
  intros Hload.
  unfold Factory.create_logger, mbind, M_bind, lift.
  rewrite FactoryFacts.discard_spec, Hload.
  eexists. split; [reflexivity|]. simpl.
  split; [apply lookup_delete_eq|].
  split; [|done]. intros other Hother. by apply lookup_delete_ne.
Qed.

(** X13: a level that [setLevel] refuses is found out late: the call raises
    after the new logger has been registered and has got its file handler,
    so the registry is left with a logger of that name that has a file
    handler, the level [NOTSET], no console handler and no filter. *)
Theorem create_logger_bad_level_half_built (logger_name : string)
    (filename : option string) (max_file_size max_backups : option Z)
    (env conf : gmap string value) (lid : string) (w : World)
    (lv : value) (settings : option (value * Z)) (e : exn) :
  logger_name ≠ "" →
  _load_conf env logger_name = Ok conf →
  _get_syslog_settings int_of_str env = Ok settings →
  getitem conf "level" = Ok lv →
  _checkLevel lv = Raise e →
  ∃ w' l,
    create_logger logger_name filename max_file_size max_backups env lid w
    = (Raise e, w')
    ∧ loggerDict w' !! logger_name = Some (List.length (heap w))
    ∧ heap w' = heap w ++ [l]
    ∧ count_handlers is_file l = 1
    ∧ count_handlers is_stream l = 0
    ∧ level l = Level.NOTSET
    ∧ filters l = [].
Proof.
  intros Hne Hconf Hsys Hlv Hbad.
  assert (Hin : ∀ k, k ∈ reserved_keys → ∃ v, getitem conf k = Ok v).
  { intros k Hk. by eapply ConfExtra.load_conf_has_key. }
  destruct (Hin "file_format") as [ff Hff]; [unfold reserved_keys; repeat constructor|].
  destruct (Hin "max_file_size") as [v1 Hv1]; [unfold reserved_keys; repeat constructor|].
  destruct (Hin "max_file_backups") as [v2 Hv2]; [unfold reserved_keys; repeat constructor|].
  destruct (py_or_getitem_ok max_file_size _ _ _ Hv1) as [maxBytes Hmax].
  destruct (py_or_getitem_ok max_backups _ _ _ Hv2) as [backupCount Hbc].
  destruct w as [d h rt nh ld].
  unfold Factory.create_logger, mbind, M_bind, lift.
  rewrite FactoryFacts.discard_spec. simpl.
  rewrite Hconf, Hff, Hmax, Hbc.
  rewrite FactoryFacts.getLogger_fresh by (done || apply lookup_delete_eq).
  simpl. rewrite FactoryFacts.alter_last. unfold has_handler. simpl.
  rewrite Hsys.
  destruct settings as [[address port]|]; simpl.
  - rewrite FactoryFacts.alter_last. unfold has_handler. simpl.
    rewrite (proj2 (Nat.eqb_neq nh (S nh))) by lia. simpl.
    rewrite Hlv. unfold setLevel, mbind, M_bind, lift. rewrite Hbad.
    eexists _, _. split; [reflexivity|]. simpl.
    split; [apply lookup_insert_eq|]. split; [reflexivity|]. done.
  - rewrite Hlv. unfold setLevel, mbind, M_bind, lift. rewrite Hbad.
    eexists _, _. split; [reflexivity|]. simpl.
    split; [apply lookup_insert_eq|]. split; [reflexivity|]. done.
Qed.

(** X14: [create_sublogger] makes the parent logger anew each time: the
    adapter wraps a new logger object, the registry holds that object under
    the parent's name, and the object registered before is still in the
    process, unchanged, but no longer the registered one. *)
Theorem create_sublogger_replaces_parent (logger_sub_name logger_name : string)
    (env : gmap string value) (lid : string) (w w' : World)
    (a : NamedLoggerAdapter) (old : nat) (l_old : Logger) :
  logger_name ≠ "" →
  loggerDict w !! logger_name = Some old →
  heap w !! old = Some l_old →
  create_sublogger logger_sub_name logger_name env lid w = (Ok a, w') →
  adapter_extra a = logger_sub_name
  ∧ adapter_logger a = Obj (List.length (heap w))
  ∧ adapter_logger a ≠ Obj old
  ∧ Obj <$> loggerDict w' !! logger_name = Some (adapter_logger a)
  ∧ heap w' !! old = Some l_old.
Proof.
  intros Hne Hreg Hold Hrun.
  unfold Sublogger.create_sublogger, mbind, M_bind in Hrun.
  destruct (create_logger logger_name None None None env lid w)
    as [[r|e] w1] eqn:Hcl; [|discriminate].
  injection Hrun as <- <-. simpl.
  destruct (FactoryFacts.create_logger_fresh _ _ _ _ _ _ _ _ _ _ _ Hne Hcl)
    as (-> & Hreg' & _ & l & Hheap & _).
  split; [done|]. split; [done|]. split.
  - intros [= Heq]. apply lookup_lt_Some in Hold. lia.
  - split.
    + by rewrite Hreg', lookup_insert_eq.
    + rewrite Hheap. by apply lookup_app_l_Some.
Qed.


End Runs.

Lemma create_logger_frame_witness :
  let run1 := Factory.create_logger (λ _, None) "/logs" "cfme" None None None
                env_all_sinks "a1b2c3d4" empty_world in
  let run2 := Factory.create_logger (λ _, None) "/logs" "perf" None None None
                env_all_sinks "e5f6g7h8" (snd run1) in
  "perf" ≠ ""
  ∧ run2 = (Ok (Obj 1), snd run2)
  ∧ loggerDict (snd run2) !! "cfme" = Some 0
  ∧ heap (snd run2) !! 0 = heap (snd run1) !! 0.
Proof.
  intros run1 run2.
  assert (H0 : "perf" ≠ "") by discriminate.
  assert (H1 : run2 = (Ok (Obj 1), snd run2)) by (vm_compute; reflexivity).
  split; [exact H0|]. split; [exact H1|].
  destruct (create_logger_frame (λ _, None) "/logs" "perf" None None None
              env_all_sinks "e5f6g7h8" (snd run1) (snd run2) (Obj 1) H0 H1)
    as (Hreg & Hheap & _).
  split.
  - rewrite (Hreg "cfme") by discriminate. reflexivity.
  - destruct (heap (snd run1) !! 0) as [l0|] eqn:Hl0.
    + exact (Hheap 0 l0 Hl0).
    + vm_compute in Hl0. discriminate Hl0.
Defined.

Lemma console_mirrors_errors_only_witness :
  let run := Factory.create_logger (λ _, None) "/logs" "cfme" None None None
               env_all_sinks "a1b2c3d4" empty_world in
  "cfme" ≠ ""
  ∧ run = (Ok (Obj 0), snd run)
  ∧ ∃ l, deref (snd run) (Obj 0) = Some l
         ∧ List.length (List.filter is_stream (callHandlers l Level.INFO)) = 0
         ∧ List.length (List.filter is_stream (callHandlers l Level.ERROR)) = 1.
Proof.
  intros run.
  assert (H0 : "cfme" ≠ "") by discriminate.
  assert (H1 : run = (Ok (Obj 0), snd run)) by (vm_compute; reflexivity).
  split; [exact H0|]. split; [exact H1|].
  destruct (deref (snd run) (Obj 0)) as [l|] eqn:Hl;
    [|vm_compute in Hl; discriminate Hl].
  exists l. split; [reflexivity|]. split.
  - exact (console_mirrors_errors_only (λ _, None) "/logs" "cfme" None None None
             env_all_sinks "a1b2c3d4" empty_world (snd run) (Obj 0) l
             Level.INFO H0 H1 Hl).
  - exact (console_mirrors_errors_only (λ _, None) "/logs" "cfme" None None None
             env_all_sinks "a1b2c3d4" empty_world (snd run) (Obj 0) l
             Level.ERROR H0 H1 Hl).
Defined.

Lemma create_logger_failed_load_unregisters_witness :
  let run1 := Factory.create_logger (λ _, None) "/logs" "cfme" None None None
                env_all_sinks "a1b2c3d4" empty_world in
  let broken : gmap string value := <["logging" := VInt 5]> ∅ in
  loggerDict (snd run1) !! "cfme" = Some 0
  ∧ _load_conf broken "cfme" = Raise TypeError
  ∧ ∃ w',
      Factory.create_logger (λ _, None) "/logs" "cfme" None None None
        broken "e5f6g7h8" (snd run1) = (Raise TypeError, w')
      ∧ loggerDict w' !! "cfme" = None.
Proof.
  intros run1 broken.
  assert (H1 : _load_conf broken "cfme" = Raise TypeError) by reflexivity.
  split; [vm_compute; reflexivity|]. split; [exact H1|].
  destruct (create_logger_failed_load_unregisters (λ _, None) "/logs" "cfme"
              None None None broken "e5f6g7h8" (snd run1) TypeError H1)
    as (w' & Hrun & Hnone & _).
  exists w'. split; [exact Hrun|exact Hnone].
Defined.

Lemma create_logger_bad_level_half_built_witness :
  let env : gmap string value :=
    <["logging" := VDict (<["level" := VStr "VERBOSE"]> ∅)]> ∅ in
  "cfme" ≠ ""
  ∧ ∃ w' l,
      Factory.create_logger (λ _, None) "/logs" "cfme" None None None
        env "a1b2c3d4" empty_world = (Raise ValueError, w')
      ∧ loggerDict w' !! "cfme" = Some 0
      ∧ heap w' = [l]
      ∧ count_handlers is_file l = 1
      ∧ filters l = [].
Proof.
  intros env.
  assert (H0 : "cfme" ≠ "") by discriminate.
  split; [exact H0|].
  destruct (create_logger_bad_level_half_built (λ _, None) "/logs" "cfme"
              None None None env
              (<["level" := VStr "VERBOSE"]> ∅ ∪ _default_conf)
              "a1b2c3d4" empty_world (VStr "VERBOSE") None ValueError
              H0 eq_refl eq_refl eq_refl eq_refl)
    as (w' & l & Hrun & Hreg & Hheap & Hfile & _ & _ & Hfilters).
  exists w', l. repeat split; assumption.
Defined.

Lemma create_sublogger_replaces_parent_witness :
  let run1 := Factory.create_logger (λ _, None) "/logs" "cfme" None None None
                env_all_sinks "a1b2c3d4" empty_world in
  let run2 := Sublogger.create_sublogger (λ _, None) "/logs" "ssh" "cfme"
                env_all_sinks "e5f6g7h8" (snd run1) in
  "cfme" ≠ ""
  ∧ loggerDict (snd run1) !! "cfme" = Some 0
  ∧ run2 = (Ok (mkNamedLoggerAdapter (Obj 1) "ssh"), snd run2)
  ∧ Obj <$> loggerDict (snd run2) !! "cfme" = Some (Obj 1)
  ∧ heap (snd run2) !! 0 = heap (snd run1) !! 0.
Proof.
  intros run1 run2.
  assert (H0 : "cfme" ≠ "") by discriminate.
  assert (H1 : loggerDict (snd run1) !! "cfme" = Some 0)
    by (vm_compute; reflexivity).
  assert (H2 : run2 = (Ok (mkNamedLoggerAdapter (Obj 1) "ssh"), snd run2))
    by (vm_compute; reflexivity).
  split; [exact H0|]. split; [exact H1|]. split; [exact H2|].
  destruct (heap (snd run1) !! 0) as [l0|] eqn:Hl0;
    [|vm_compute in Hl0; discriminate Hl0].
  destruct (create_sublogger_replaces_parent (λ _, None) "/logs" "ssh" "cfme"
              env_all_sinks "e5f6g7h8" (snd run1) (snd run2)
              (mkNamedLoggerAdapter (Obj 1) "ssh") 0 l0 H0 H1 Hl0 H2)
    as (_ & _ & _ & Hreg & Hheap).
  split; [exact Hreg|exact Hheap].
Defined.


Example create_logger_perf_debug :
  let env : gmap string value :=
    <["logging" := VDict (<["level" := VStr "DEBUG"]> ∅)]> ∅ in
  let run := Factory.create_logger (λ _, None) "/logs" "perf" (Some "") None None
               env "a1b2c3d4" empty_world in
  (level <$> deref (snd run) (Obj 0)) = Some Level.DEBUG
  ∧ (deref (snd run) (Obj 0) ≫= (λ l, kind <$> head (handlers l)))
    = Some (RotatingFileHandler "/logs/perf.log" (VInt 0) (VInt 0)).
Proof. vm_compute. done. Qed.

End FactoryExtra.

(** ** Artifact-forwarding adapter: attribution from end to end *)

Module AdapterExtra.
Import Relpath Adapter.

Section MethodLaws.

Variable get_rel_path : string → string.
Variable safe_string : string → string.
Variable import_art_client : result unit.
Variable import_SLAVEID : result string.
Variable fire_hook : string → ArtRecord → string → result unit.

#[local] Abbreviation call := (call get_rel_path safe_string import_art_client
                                 import_SLAVEID fire_hook).

(** What a severity method does once the imports behind the adapter have
    worked: the record goes to the collector, and the collector's answer
    decides whether the wrapped logger is called. *)
Lemma call_outcome (s : severity) (frameinfo : FrameInfo) (msg slaveid : string)
    (args : list string) (kwargs : Kwargs) (tr : list event) :
  import_art_client = Ok () → import_SLAVEID = Ok slaveid →
  let msg' := fst (process get_rel_path frameinfo msg (entry_kwargs s kwargs)) in
  let kwargs' := snd (process get_rel_path frameinfo msg (entry_kwargs s kwargs)) in
  let art := mkArtRecord (reported_level s) (safe_string msg') (kw_extra kwargs') in
  call s frameinfo msg args kwargs tr
  = match fire_hook "log_message" art slaveid with
    | Ok _ => (Ok (), tr ++ [FireHook "log_message" art slaveid;
                             LoggerCall (wrapped_method s) msg' args kwargs'])
    | Raise e => (Raise e, tr ++ [FireHook "log_message" art slaveid])
    end.
Proof.
  intros Hc Hs msg' kwargs' art. rewrite AdapterFacts.call_unfold.
  destruct (process get_rel_path frameinfo msg (entry_kwargs s kwargs))
    as [m k] eqn:Hp.
  simpl in msg', kwargs'. subst msg' kwargs'.
  unfold mbind, T_bind.
  rewrite (AdapterFacts.art_log_run _ _ _ _ _ _ slaveid _ _ Hc Hs). fold art.
  destruct (fire_hook "log_message" art slaveid); [|done].
  unfold logger_call, emit. by rewrite <- app_assoc.
Qed.

(** X16: a logging call through the adapter that brings no [source_file] of
    its own, from a frame that has a file name, ends in a record whose
    source string is made of the file and line of that frame, the original
    caller, and not of the place inside the logging module from which the
    wrapped logger is called. *)
Theorem adapter_attributes_original_caller (frameinfo caller : FrameInfo)
    (m : logger_method) (msg : string) (kwargs : Kwargs) :
  frame_filename frameinfo ≠ "" →
  has_source_file (default (mkExtra None None) (kw_extra kwargs)) = false →
  let msg' := fst (process get_rel_path frameinfo msg kwargs) in
  let kwargs' := snd (process get_rel_path frameinfo msg kwargs) in
  filter get_rel_path (makeRecord caller m msg' kwargs')
  = Ok (true,
        set_source
          (source_of (get_rel_path (get_rel_path (frame_filename frameinfo)))
             (Some (frame_lineno frameinfo)))
          (makeRecord caller m msg' kwargs')).
Proof.
  intros Hfile Hx msg' kwargs'. subst msg' kwargs'.
  unfold process. rewrite Hx. cbn [negb fst snd].
  destruct (String.eqb_spec (frame_filename frameinfo) ""); [done|].
  cbn [negb fst snd].
  by apply RelpathFacts.filter_of_provenance.
Qed.

(** [process] leaves keyword arguments with a [source_file] alone. *)
Lemma process_keeps_supplied (frameinfo : FrameInfo) (msg f : string)
    (extra : Extra) (exc_info : option Z) :
  x_source_file extra = Some f → f ≠ "" →
  process get_rel_path frameinfo msg (mkKwargs (Some extra) exc_info)
  = (msg, mkKwargs (Some extra) exc_info).
Proof.
  intros Hf Hne. unfold process. simpl.
  unfold has_source_file. rewrite Hf.
  by destruct (String.eqb_spec f "").
Qed.

(** X17: a [source_file] that the caller supplies (other than the empty
    string) goes through the adapter as it is. With a [source_lineno] beside
    it the record's source string is made of the two; without one the
    adapter adds none, and the source string falls back to the place inside
    the logging module from which the wrapped logger is called. *)
Theorem adapter_keeps_supplied_source (frameinfo caller : FrameInfo)
    (m : logger_method) (msg f : string) (extra : Extra) (exc_info : option Z) :
  x_source_file extra = Some f → f ≠ "" →
  let kwargs := mkKwargs (Some extra) exc_info in
  process get_rel_path frameinfo msg kwargs = (msg, kwargs)
  ∧ (∀ l, x_source_lineno extra = Some l →
       filter get_rel_path (makeRecord caller m msg kwargs)
       = Ok (true, set_source (source_of (get_rel_path f) l)
                     (makeRecord caller m msg kwargs)))
  ∧ (x_source_lineno extra = None →
       filter get_rel_path (makeRecord caller m msg kwargs)
       = Ok (true, set_source
                     (source_of (get_rel_path (frame_filename caller))
                        (Some (frame_lineno caller)))
                     (makeRecord caller m msg kwargs))).
Proof.
  intros Hf Hne kwargs.
  split; [|split].
  - by eapply process_keeps_supplied.
  - intros l Hl. apply RelpathFacts.filter_of_provenance.
    by apply RelpathFacts.provenance_supplied.
  - intros Hl. apply RelpathFacts.filter_of_provenance.
    apply RelpathFacts.provenance_fallback. by right.
Qed.

Lemma call_import_failure_run (s : severity) (frameinfo : FrameInfo)
    (msg : string) (args : list string) (kwargs : Kwargs) (tr : list event)
    (e : exn) :
  import_art_client = Raise e
  ∨ (import_art_client = Ok () ∧ import_SLAVEID = Raise e) →
  call s frameinfo msg args kwargs tr = (Raise e, tr).
Proof.
  intros Himp. rewrite AdapterFacts.call_unfold.
  destruct (process get_rel_path frameinfo msg (entry_kwargs s kwargs)) as [m k].
  unfold mbind, T_bind, art_log, mbind, T_bind, lift.
  destruct Himp as [-> | [-> ->]]; reflexivity.
Qed.

(** X18: when the import behind the [artifactor] or the [slaveid] property
    raises, every severity method raises that exception at once: nothing is
    sent to the collector and the wrapped logger is not called. *)
Theorem call_import_failure (s : severity) (frameinfo : FrameInfo) (msg : string)
    (args : list string) (kwargs : Kwargs) (tr : list event) (e : exn) :
  import_art_client = Raise e
  ∨ (import_art_client = Ok () ∧ import_SLAVEID = Raise e) →
  call s frameinfo msg args kwargs tr = (Raise e, tr).
Proof. apply call_import_failure_run. Qed.

End MethodLaws.

Lemma adapter_attributes_original_caller_witness :
  let frameinfo := mkFrameInfo "/proj/cfme/base.py" 12 in
  let caller := mkFrameInfo "/proj/utils/log.py" 499 in
  let kwargs' := mkKwargs (Some (mkExtra (Some "cfme/base.py") (Some (Some 12%Z))))
                   None in
  frame_filename frameinfo ≠ ""
  ∧ filter (get_rel_path_under "/proj") (makeRecord caller m_info "hello" kwargs')
    = Ok (true, set_source "cfme/base.py:12" (makeRecord caller m_info "hello" kwargs')).
Proof.
  intros frameinfo caller kwargs'.
  assert (H0 : frame_filename frameinfo ≠ "") by discriminate.
  split; [exact H0|].
  exact (adapter_attributes_original_caller (get_rel_path_under "/proj")
           frameinfo caller m_info "hello" (mkKwargs None None) H0 eq_refl).
Defined.

Lemma adapter_keeps_supplied_source_witness :
  let caller := mkFrameInfo "/proj/utils/log.py" 499 in
  let extra := mkExtra (Some "/proj/cfme/tests/test_x.py") None in
  let kwargs := mkKwargs (Some extra) None in
  "/proj/cfme/tests/test_x.py" ≠ ""
  ∧ process (get_rel_path_under "/proj") (mkFrameInfo "/proj/cfme/base.py" 12)
      "hello" kwargs = ("hello", kwargs)
  ∧ filter (get_rel_path_under "/proj") (makeRecord caller m_info "hello" kwargs)
    = Ok (true, set_source "utils/log.py:499" (makeRecord caller m_info "hello" kwargs)).
Proof.
  intros caller extra kwargs.
  assert (H0 : "/proj/cfme/tests/test_x.py" ≠ "") by discriminate.
  split; [exact H0|].
  destruct (adapter_keeps_supplied_source (get_rel_path_under "/proj")
              (mkFrameInfo "/proj/cfme/base.py" 12) caller m_info "hello"
              "/proj/cfme/tests/test_x.py" extra None eq_refl H0)
    as (Hp & _ & Hfall).
  split; [exact Hp|]. exact (Hfall eq_refl).
Defined.

Lemma call_import_failure_witness :
  call (get_rel_path_under "/proj") id (Raise ImportError) (Ok "") collector_up
    Warning (mkFrameInfo "/proj/cfme/base.py" 12) "disk full" []
    (mkKwargs None None) []
  = (Raise ImportError, []).
Proof.
  exact (call_import_failure (get_rel_path_under "/proj") id (Raise ImportError)
           (Ok "") collector_up Warning (mkFrameInfo "/proj/cfme/base.py" 12)
           "disk full" [] (mkKwargs None None) [] ImportError
           (or_introl eq_refl)).
Defined.

End AdapterExtra.

(** ** The warning hook and the exception hook *)

Module HooksExtra.
Import Relpath Adapter Hooks.

Section HookLaws.

Variable get_rel_path : string → string.
Variable safe_string : string → string.
Variable import_art_client : result unit.
Variable import_SLAVEID : result string.
Variable fire_hook : string → ArtRecord → string → result unit.
Variable format_tb_text : list tb_entry → string.

#[local] Abbreviation call := (Adapter.call get_rel_path safe_string
                                 import_art_client import_SLAVEID fire_hook).
#[local] Abbreviation _showwarning :=
  (_showwarning get_rel_path safe_string import_art_client import_SLAVEID fire_hook).
#[local] Abbreviation _custom_excepthook :=
  (_custom_excepthook get_rel_path safe_string import_art_client import_SLAVEID
     fire_hook format_tb_text).

(** A severity method called from a hook, when the collector takes every
    record. *)
Lemma of_adapter_accepted (s : severity) (frameinfo : FrameInfo)
    (msg slaveid : string) (kwargs : Kwargs) (tr : list io) :
  import_art_client = Ok () → import_SLAVEID = Ok slaveid →
  (∀ art, fire_hook "log_message" art slaveid = Ok ()) →
  ∃ art,
    of_adapter (call s frameinfo msg [] kwargs) tr
    = (Ok (),
       tr ++ [FromAdapter (FireHook "log_message" art slaveid);
              FromAdapter
                (LoggerCall (wrapped_method s)
                   (fst (process get_rel_path frameinfo msg (entry_kwargs s kwargs)))
                   []
                   (snd (process get_rel_path frameinfo msg (entry_kwargs s kwargs))))]).
Proof.
  intros Hc Hs Hall. unfold of_adapter.
  rewrite (AdapterExtra.call_outcome _ _ _ _ _ _ _ _ slaveid _ _ _ Hc Hs).
  rewrite Hall. eexists. reflexivity.
Qed.

(** The same when the collector refuses every record. *)
Lemma of_adapter_refused (s : severity) (frameinfo : FrameInfo)
    (msg slaveid : string) (kwargs : Kwargs) (tr : list io) (e : exn) :
  import_art_client = Ok () → import_SLAVEID = Ok slaveid →
  (∀ art, fire_hook "log_message" art slaveid = Raise e) →
  ∃ art,
    of_adapter (call s frameinfo msg [] kwargs) tr
    = (Raise e, tr ++ [FromAdapter (FireHook "log_message" art slaveid)]).
Proof.
  intros Hc Hs Hall. unfold of_adapter.
  rewrite (AdapterExtra.call_outcome _ _ _ _ _ _ _ _ slaveid _ _ _ Hc Hs).
  rewrite Hall. eexists. reflexivity.
Qed.

(** X19: the warning hook never raises on account of a missing artifactor
    plugin. A warning whose file [get_rel_path] turns into the empty string
    is dropped without a trace; for any other warning, when the import of
    the artifactor client raises [ImportError], the formatted message is
    printed with [[WARNING]] in front and the hook returns. *)
Theorem showwarning_import_error_prints (frameinfo : FrameInfo)
    (message category_name filename : string) (lineno : Z) (tr : list io) :
  let relpath := get_rel_path filename in
  let text := category_name +:+ " from " +:+ relpath +:+ ":" +:+ pretty lineno
              +:+ ": " +:+ message in
  (relpath = "" →
     _showwarning frameinfo message category_name filename lineno tr = (Ok (), tr))
  ∧ (relpath ≠ "" → import_art_client = Raise ImportError →
     _showwarning frameinfo message category_name filename lineno tr
     = (Ok (), tr ++ [Printed ("[WARNING] " +:+ text)])).
Proof.
  intros relpath text. unfold Hooks._showwarning. fold relpath. split.
  - intros ->. reflexivity.
  - intros Hne Himp.
    destruct (String.eqb_spec relpath ""); [done|]. cbn [negb].
    unfold except_ImportError, of_adapter.
    change (warning get_rel_path safe_string import_art_client import_SLAVEID
              fire_hook)
      with (call Warning).
    rewrite (AdapterExtra.call_import_failure_run _ _ _ _ _ _ _ _ _ _ _ ImportError
               (or_introl Himp)).
    simpl. unfold print. by rewrite app_nil_r.
Qed.

(** X20: the warning hook catches nothing but [ImportError]. With the
    artifactor in place, a warning from inside the project is sent to the
    collector and then logged at warning level and not printed; and when
    the collector raises any other exception, that exception leaves the
    hook, with the warning neither logged nor printed. *)
Theorem showwarning_collector_outcomes (frameinfo : FrameInfo)
    (message category_name filename slaveid : string) (lineno : Z)
    (tr : list io) :
  let relpath := get_rel_path filename in
  let text := category_name +:+ " from " +:+ relpath +:+ ":" +:+ pretty lineno
              +:+ ": " +:+ message in
  relpath ≠ "" →
  import_art_client = Ok () → import_SLAVEID = Ok slaveid →
  ((∀ art, fire_hook "log_message" art slaveid = Ok ()) →
     ∃ art kwargs,
       _showwarning frameinfo message category_name filename lineno tr
       = (Ok (), tr ++ [FromAdapter (FireHook "log_message" art slaveid);
                        FromAdapter (LoggerCall m_warning text [] kwargs)]))
  ∧ (∀ e, e ≠ ImportError →
       (∀ art, fire_hook "log_message" art slaveid = Raise e) →
       ∃ art,
         _showwarning frameinfo message category_name filename lineno tr
         = (Raise e, tr ++ [FromAdapter (FireHook "log_message" art slaveid)])).
Proof.
  intros relpath text Hne Hc Hs. unfold Hooks._showwarning. fold relpath.
  destruct (String.eqb_spec relpath ""); [done|]. cbn [negb]. fold text.
  unfold except_ImportError.
  change (warning get_rel_path safe_string import_art_client import_SLAVEID
            fire_hook)
    with (call Warning).
  split.
  - intros Hall.
    destruct (of_adapter_accepted Warning frameinfo text slaveid
                (mkKwargs None None) tr Hc Hs Hall) as [art ->].
    eexists art, _. reflexivity.
  - intros e He Hall.
    destruct (of_adapter_refused Warning frameinfo text slaveid
                (mkKwargs None None) tr e Hc Hs Hall) as [art ->].
    exists art. by destruct e.
Qed.

(** X21: for an exception whose traceback ends in a frame with a file name,
    and with a collector that takes every record, the exception hook logs
    two errors, [Unhandled] with the name of the type and then the text of
    the traceback, and calls the hook that was installed before as the last
    thing; the record of the second error is attributed to the frame in
    which the exception arose, not to the hook. *)
Theorem excepthook_logs_then_delegates (frame1 frame2 caller : FrameInfo)
    (type_name slaveid : string) (traceback : list tb_entry) (entry : tb_entry)
    (tr : list io) :
  last traceback = Some entry →
  tb_file entry ≠ "" →
  import_art_client = Ok () → import_SLAVEID = Ok slaveid →
  (∀ art, fire_hook "log_message" art slaveid = Ok ()) →
  let kwargs2 := mkKwargs (Some (mkExtra (Some (tb_file entry))
                                   (Some (Some (tb_lineno entry))))) None in
  (∃ art1 kwargs1 art2,
     _custom_excepthook frame1 frame2 type_name traceback tr
     = (Ok (),
        tr ++ [FromAdapter (FireHook "log_message" art1 slaveid);
               FromAdapter (LoggerCall m_error ("Unhandled " +:+ type_name) []
                              kwargs1);
               FromAdapter (FireHook "log_message" art2 slaveid);
               FromAdapter (LoggerCall m_error (format_tb_text traceback) []
                              kwargs2);
               OriginalExcepthook type_name]))
  ∧ filter get_rel_path
      (makeRecord caller m_error (format_tb_text traceback) kwargs2)
    = Ok (true,
          set_source
            (source_of (get_rel_path (tb_file entry)) (Some (tb_lineno entry)))
            (makeRecord caller m_error (format_tb_text traceback) kwargs2)).
Proof.
  intros Hlast Hfile Hc Hs Hall kwargs2. split.
  - unfold Hooks._custom_excepthook. rewrite Hlast.
    unfold mbind, H_bind.
    change (error get_rel_path safe_string import_art_client import_SLAVEID
              fire_hook)
      with (call Error).
    destruct (of_adapter_accepted Error frame1 ("Unhandled " +:+ type_name)
                slaveid (mkKwargs None None) tr Hc Hs Hall) as [art1 ->].
    match goal with
    | |- context [of_adapter (call Error frame2 ?m [] ?k) ?t] =>
        destruct (of_adapter_accepted Error frame2 m slaveid k t Hc Hs Hall)
          as [art2 Hrun2]
    end.
    rewrite Hrun2. unfold call_original_excepthook.
    pose proof (AdapterExtra.process_keeps_supplied get_rel_path frame2
                  (format_tb_text traceback) (tb_file entry)
                  (mkExtra (Some (tb_file entry)) (Some (Some (tb_lineno entry))))
                  None eq_refl Hfile) as Hp.
    simpl entry_kwargs. rewrite Hp. simpl fst. simpl snd.
    eexists art1, _, art2. rewrite <- !app_assoc. reflexivity.
  - apply RelpathFacts.filter_of_provenance.
    by apply RelpathFacts.provenance_supplied.
Qed.

(** X22: the exception hook does not always reach the hook that was
    installed before. An empty traceback makes it raise [IndexError] before
    anything is logged; and when the collector raises, that exception leaves
    the hook after the first record was offered to the collector, with
    nothing logged and the earlier hook not called. *)
Theorem excepthook_can_fail_before_delegating (frame1 frame2 : FrameInfo)
    (type_name slaveid : string) (traceback : list tb_entry) (tr : list io)
    (e : exn) :
  import_art_client = Ok () → import_SLAVEID = Ok slaveid →
  (∀ art, fire_hook "log_message" art slaveid = Raise e) →
  _custom_excepthook frame1 frame2 type_name [] tr = (Raise IndexError, tr)
  ∧ (traceback ≠ [] →
     ∃ art,
       _custom_excepthook frame1 frame2 type_name traceback tr
       = (Raise e, tr ++ [FromAdapter (FireHook "log_message" art slaveid)])).
Proof.
  intros Hc Hs Hall. split; [reflexivity|].
  intros Hne. unfold Hooks._custom_excepthook.
  destruct (last traceback) as [entry|] eqn:Hlast.
  - unfold mbind, H_bind.
    change (error get_rel_path safe_string import_art_client import_SLAVEID
              fire_hook)
      with (call Error).
    destruct (of_adapter_refused Error frame1 ("Unhandled " +:+ type_name)
                slaveid (mkKwargs None None) tr e Hc Hs Hall) as [art ->].
    by exists art.
  - by apply last_None in Hlast.
Qed.

End HookLaws.

Lemma showwarning_import_error_prints_witness :
  Hooks._showwarning (get_rel_path_under "/proj") id (Raise ImportError) (Ok "")
    collector_up (mkFrameInfo "/proj/utils/log.py" 398) "old api"
    "DeprecationWarning" "/proj/cfme/base.py" 12 []
  = (Ok (), [Printed "[WARNING] DeprecationWarning from cfme/base.py:12: old api"]).
Proof.
  exact (proj2 (showwarning_import_error_prints (get_rel_path_under "/proj") id
                  (Raise ImportError) (Ok "") collector_up
                  (mkFrameInfo "/proj/utils/log.py" 398) "old api"
                  "DeprecationWarning" "/proj/cfme/base.py" 12 [])
           ltac:(discriminate) eq_refl).
Defined.

Lemma showwarning_collector_outcomes_witness :
  get_rel_path_under "/proj" "/proj/cfme/base.py" ≠ ""
  ∧ ∃ art,
      Hooks._showwarning (get_rel_path_under "/proj") id (Ok ()) (Ok "slave0")
        collector_down (mkFrameInfo "/proj/utils/log.py" 398) "old api"
        "DeprecationWarning" "/proj/cfme/base.py" 12 []
      = (Raise (CollectorError "connection refused"),
         [FromAdapter (FireHook "log_message" art "slave0")]).
Proof.
  assert (H : get_rel_path_under "/proj" "/proj/cfme/base.py" ≠ "")
    by discriminate.
  split; [exact H|].
  exact (proj2 (showwarning_collector_outcomes (get_rel_path_under "/proj") id
                  (Ok ()) (Ok "slave0") collector_down
                  (mkFrameInfo "/proj/utils/log.py" 398) "old api"
                  "DeprecationWarning" "/proj/cfme/base.py" "slave0" 12 []
                  H eq_refl eq_refl)
           (CollectorError "connection refused") ltac:(discriminate)
           (λ _, eq_refl)).
Defined.

Lemma excepthook_logs_then_delegates_witness :
  let entry := mkTbEntry "/proj/cfme/base.py" 12 "provision" "raise ValueError()" in
  let kwargs2 := mkKwargs (Some (mkExtra (Some "/proj/cfme/base.py")
                                   (Some (Some 12%Z)))) None in
  let caller := mkFrameInfo "/proj/utils/log.py" 509 in
  last [entry] = Some entry
  ∧ tb_file entry ≠ ""
  ∧ filter (get_rel_path_under "/proj")
      (makeRecord caller m_error "Traceback" kwargs2)
    = Ok (true, set_source "cfme/base.py:12"
                  (makeRecord caller m_error "Traceback" kwargs2)).
Proof.
  intros entry kwargs2 caller.
  assert (H1 : last [entry] = Some entry) by reflexivity.
  assert (H2 : tb_file entry ≠ "") by discriminate.
  split; [exact H1|]. split; [exact H2|].
  exact (proj2 (excepthook_logs_then_delegates (get_rel_path_under "/proj") id
                  (Ok ()) (Ok "slave0") collector_up (λ _, "Traceback")
                  (mkFrameInfo "/proj/utils/log.py" 434)
                  (mkFrameInfo "/proj/utils/log.py" 435) caller
                  "ValueError" "slave0" [entry] entry []
                  H1 H2 eq_refl eq_refl (λ _, eq_refl))).
Defined.

Example excepthook_run :
  let entry := mkTbEntry "/proj/cfme/base.py" 12 "provision" "raise ValueError()" in
  List.map
    (λ e, match e with
          | FromAdapter (LoggerCall _ m _ _) => "log: " +:+ m
          | FromAdapter (FireHook _ r _) => "art: " +:+ art_message r
          | Printed l => "print: " +:+ l
          | OriginalExcepthook t => "original: " +:+ t
          end)
    (snd (Hooks._custom_excepthook (get_rel_path_under "/proj") id (Ok ())
            (Ok "slave0") collector_up (λ _, "Traceback")
            (mkFrameInfo "/proj/utils/log.py" 434)
            (mkFrameInfo "/proj/utils/log.py" 435) "ValueError" [entry] []))
  = ["art: Unhandled ValueError"; "log: Unhandled ValueError";
     "art: Traceback"; "log: Traceback"; "original: ValueError"].
Proof. reflexivity. Qed.

Lemma excepthook_can_fail_before_delegating_witness :
  let entry := mkTbEntry "/proj/cfme/base.py" 12 "provision" "raise ValueError()" in
  [entry] ≠ []
  ∧ ∃ art,
      Hooks._custom_excepthook (get_rel_path_under "/proj") id (Ok ())
        (Ok "slave0") collector_down (λ _, "Traceback")
        (mkFrameInfo "/proj/utils/log.py" 434)
        (mkFrameInfo "/proj/utils/log.py" 435) "ValueError" [entry] []
      = (Raise (CollectorError "connection refused"),
         [FromAdapter (FireHook "log_message" art "slave0")]).
Proof.
  intros entry.
  assert (H : [entry] ≠ []) by discriminate.
  split; [exact H|].
  exact (proj2 (excepthook_can_fail_before_delegating (get_rel_path_under "/proj")
                  id (Ok ()) (Ok "slave0") collector_down (λ _, "Traceback")
                  (mkFrameInfo "/proj/utils/log.py" 434)
                  (mkFrameInfo "/proj/utils/log.py" 435) "ValueError" "slave0"
                  [entry] [] (CollectorError "connection refused")
                  eq_refl eq_refl (λ _, eq_refl)) H).
Defined.

End HooksExtra.

(** ** The syslog time stamp *)

Module SyslogFormatExtra.
Import SyslogFormat.

Lemma fmt_03d_checked :
  forallb (λ k, Nat.eqb (String.length (fmt_03d (Z.of_nat k))) 3
                && (digits_value 0 (fmt_03d (Z.of_nat k)) =? Z.of_nat k)%Z)
    (seq 0 1000) = true.
Proof. vm_compute. reflexivity. Qed.

Lemma fmt_03d_in_range (n : Z) :
  (0 ≤ n < 1000)%Z →
  String.length (fmt_03d n) = 3 ∧ digits_value 0 (fmt_03d n) = n.
Proof.
  intros Hn.
  pose proof fmt_03d_checked as Hall. rewrite forallb_forall in Hall.
  specialize (Hall (Z.to_nat n)).
  rewrite Z2Nat.id in Hall by lia.
  assert (Hin : In (Z.to_nat n) (seq 0 1000)) by (apply in_seq; lia).
  apply Hall in Hin. apply andb_true_iff in Hin as [H1 H2].
  split; [by apply Nat.eqb_eq|by apply Z.eqb_eq].
Qed.

Section FormatTimeLaws.

Context {time : Type}.
Variable strftime : time → string → string.

(** X23: without a date format, the time stamp is the second-resolution
    text followed by a dot and the milliseconds in exactly three digits, so
    it is four characters longer than that text, and two stamps of the same
    second are equal only when their milliseconds are; with a date format
    the milliseconds are left out. *)
Theorem formatTime_milliseconds (ct : time) (msecs msecs' : Z) (datefmt : string) :
  (0 ≤ msecs < 1000)%Z → (0 ≤ msecs' < 1000)%Z → datefmt ≠ "" →
  let seconds := strftime ct "%Y-%m-%d %H:%M:%S" in
  String.length (formatTime strftime ct msecs None) = String.length seconds + 4
  ∧ (formatTime strftime ct msecs None = formatTime strftime ct msecs' None
     → msecs = msecs')
  ∧ formatTime strftime ct msecs (Some datefmt) = strftime ct datefmt.
Proof.
  intros Hm Hm' Hfmt seconds.
  destruct (fmt_03d_in_range msecs Hm) as [Hlen Hval].
  destruct (fmt_03d_in_range msecs' Hm') as [_ Hval'].
  split; [|split].
  - unfold formatTime. fold seconds.
    rewrite !str_app_length, Hlen. simpl. lia.
  - unfold formatTime. fold seconds. intros Heq.
    apply String.app_inj in Heq. apply String.app_inj in Heq.
    rewrite <- Hval, <- Hval'. by rewrite Heq.
  - unfold formatTime. by destruct (String.eqb_spec datefmt "").
Qed.

End FormatTimeLaws.

Example fmt_03d_small : fmt_03d 7 = "007".
Proof. reflexivity. Qed.

Lemma formatTime_milliseconds_witness :
  (0 ≤ 7 < 1000)%Z
  ∧ formatTime (λ (ct : Z) (f : string), "2018-02-28 10:09:00") 0%Z 7 None
    = "2018-02-28 10:09:00.007"
  ∧ String.length
      (formatTime (λ (ct : Z) (f : string), "2018-02-28 10:09:00") 0%Z 7 None)
    = 23.
Proof.
  assert (H : (0 ≤ 7 < 1000)%Z) by lia.
  split; [exact H|]. split; [reflexivity|].
  exact (proj1 (formatTime_milliseconds
                  (λ (ct : Z) (f : string), "2018-02-28 10:09:00")
                  0%Z 7 7 "%H:%M" H H ltac:(discriminate))).
Defined.

End SyslogFormatExtra.

(** ** Migration 0044 *)

Module MigrationExtra.
Import Migration.

Lemma add_type_row (t : Template) :
  add_type_to_template [t] = [migrated_row t].
Proof.
  destruct t as [[c|] [p|] ty]; unfold add_type_to_template, migrated_row, update,
    container_is, container_is_null, provider_type_is, set_container,
    set_template_type; simpl;
    repeat (match goal with
            | |- context [String.eqb ?a ?b] => destruct (String.eqb a b); simpl
            end); reflexivity.
Qed.

(** The migration works row by row. *)
Lemma add_type_closed_form (table : list Template) :
  add_type_to_template table = map migrated_row table.
Proof.
  induction table as [|t table IH]; [reflexivity|].
  change (add_type_to_template (t :: table))
    with (add_type_to_template [t] ++ add_type_to_template table).
  by rewrite add_type_row, IH.
Qed.

(** X24: after the migration the type of every row is decided by its
    container and the type of its provider: [openshift_pod] for a container
    on an openshift provider, [virtual_machine] for no container on an
    openshift provider, and [docker_vm] for every row whose provider is not
    openshift, with or without a container. *)
Theorem add_type_classification (table : list Template) (t : Template) :
  t ∈ add_type_to_template table →
  template_type t
  = (if provider_type_is "openshift" t
     then (if container_is_null t then "virtual_machine" else "openshift_pod")
     else "docker_vm").
Proof.
  rewrite add_type_closed_form, list_elem_of_fmap.
  intros (t0 & -> & _). unfold migrated_row.
  destruct t0 as [[c|] [p|] ty];
    unfold container_is, container_is_null, provider_type_is; simpl;
    repeat (match goal with
            | |- context [String.eqb ?a ?b] => destruct (String.eqb a b); simpl
            end); reflexivity.
Qed.

(** X25: the migration turns every empty container name into null and
    changes no other container and no provider type: the table keeps its
    length and its order, and no row is left with an empty container
    name. *)
Theorem add_type_normalises_containers (table : list Template) :
  List.length (add_type_to_template table) = List.length table
  ∧ (∀ i t, table !! i = Some t →
       ∃ t', add_type_to_template table !! i = Some t'
             ∧ provider_type t' = provider_type t
             ∧ container t'
               = (if container_is "" t then None else container t))
  ∧ (∀ t', t' ∈ add_type_to_template table → container t' ≠ Some "").
Proof.
  rewrite add_type_closed_form. split; [apply length_map|]. split.
  - intros i t Hi. exists (migrated_row t). split; [|done].
    by rewrite list_lookup_fmap, Hi.
  - intros t'. rewrite list_elem_of_fmap. intros (t & -> & _).
    unfold migrated_row, container_is. simpl.
    destruct (container t) as [c|]; [|done].
    destruct (String.eqb_spec c ""); [done|]. congruence.
Qed.

Lemma migrated_row_idempotent (t : Template) :
  migrated_row (migrated_row t) = migrated_row t.
Proof.
  destruct t as [[c|] [p|] ty];
    unfold migrated_row, container_is, provider_type_is; simpl;
    repeat (match goal with
            | |- context [String.eqb ?a ?b] =>
                destruct (String.eqb a b) eqn:?; simpl
            end); try reflexivity; congruence.
Qed.

(** X26: running the migration a second time changes nothing, and what it
    leaves does not depend on the types the rows had before. *)
Theorem add_type_idempotent (table : list Template) (ty : string) :
  add_type_to_template (add_type_to_template table) = add_type_to_template table
  ∧ add_type_to_template (map (set_template_type ty) table)
    = add_type_to_template table.
Proof.
  rewrite !add_type_closed_form. split.
  - rewrite map_map. apply map_ext. intros t. apply migrated_row_idempotent.
  - rewrite map_map. apply map_ext. intros t. by destruct t.
Qed.

Example add_type_example :
  add_type_to_template
    [mkTemplate None (Some "rhevm") "virtual_machine";
     mkTemplate (Some "") (Some "openshift") "virtual_machine";
     mkTemplate (Some "cfme") (Some "openshift") "virtual_machine";
     mkTemplate (Some "cfme") (Some "rhevm") "virtual_machine"]
  = [mkTemplate None (Some "rhevm") "docker_vm";
     mkTemplate None (Some "openshift") "virtual_machine";
     mkTemplate (Some "cfme") (Some "openshift") "openshift_pod";
     mkTemplate (Some "cfme") (Some "rhevm") "docker_vm"].
Proof. reflexivity. Qed.

Lemma add_type_classification_witness :
  let row := mkTemplate None (Some "rhevm") "docker_vm" in
  row ∈ add_type_to_template [mkTemplate None (Some "rhevm") "virtual_machine"]
  ∧ template_type row = "docker_vm".
Proof.
  intros row.
  assert (H : row ∈ add_type_to_template
                      [mkTemplate None (Some "rhevm") "virtual_machine"])
    by (apply list_elem_of_here).
  split; [exact H|].
  exact (add_type_classification _ row H).
Defined.

End MigrationExtra.
